(** * dee: package-manager detection and command harmonization (src/d.ts)

    A shallow embedding of the functions of [src/d.ts] and the properties
    of its project-structure resolver, package-manager selector, command
    harmonizer and entry point. *)

From Stdlib Require Import String Ascii List ZArith Bool Lia.
Import ListNotations.
Open Scope string_scope.
Open Scope list_scope.

(** ** Paths

    [process.cwd()] is an absolute, normalized POSIX path.  Such a path is
    kept as the list of its components, innermost first:
    [/repo/packages/app] is [["app"; "packages"; "repo"]] and the
    filesystem root [/] is [[]].  With this reading [path.dirname] drops
    the head, [path.join dir name] conses a component, and
    [path.parse(p).root] is always [/]. *)

Definition path := list string.

Definition root : path := [].

Definition dirname (p : path) : path := tl p.

Definition join (dir : path) (name : string) : path := name :: dir.

Fixpoint renderSegs (l : list string) : string :=
  match l with
  | [] => EmptyString
  | s :: r => "/" ++ s ++ renderSegs r
  end.

(** The text of a path, as the program prints and compares it. *)
Definition render (p : path) : string :=
  match p with
  | [] => "/"
  | _ => renderSegs (rev p)
  end.

Fixpoint path_eqb (p q : path) : bool :=
  match p, q with
  | [], [] => true
  | a :: p', b :: q' => (a =? b) && path_eqb p' q'
  | _, _ => false
  end.

(** ** JSON values, as [JSON.parse] returns them

    The program looks at a number only to tell whether it is zero, so a
    number is kept as an integer. *)

#[local] Unset Elimination Schemes.
Inductive json : Type :=
| JNull
| JBool (b : bool)
| JNum (n : Z)
| JStr (s : string)
| JArr (items : list json)
| JObj (fields : list (string * json)).
#[local] Set Elimination Schemes.

(** JavaScript truthiness of a parsed value. *)
Definition truthy (v : json) : bool :=
  match v with
  | JNull => false
  | JBool b => b
  | JNum n => negb (n =? 0)%Z
  | JStr s => negb (s =? EmptyString)
  | JArr _ => true
  | JObj _ => true
  end.

(** A duplicated key keeps its last value in [JSON.parse]. *)
Fixpoint lookupField (k : string) (fields : list (string * json)) : option json :=
  match fields with
  | [] => None
  | (k', v) :: rest =>
      match lookupField k rest with
      | Some w => Some w
      | None => if k =? k' then Some v else None
      end
  end.

(** The result of reading a property [v.k]. *)
Inductive propResult : Type :=
| Throws
| Undefined
| Value (v : json).

(** [v.k] for the property names the program reads ([workspaces],
    [packageManager], [scripts] and the five script commands): none of
    them is inherited from a prototype, so a primitive or an array gives
    [undefined]; reading a property of [null] throws. *)
Definition getProp (v : json) (k : string) : propResult :=
  match v with
  | JNull => Throws
  | JObj fields =>
      match lookupField k fields with
      | Some w => Value w
      | None => Undefined
      end
  | _ => Undefined
  end.

Definition propTruthy (r : propResult) : bool :=
  match r with
  | Value v => truthy v
  | _ => false
  end.

(** ** The filesystem

    A path names nothing, a directory, or a file.  A file carries what
    [JSON.parse] makes of its text: [None] when the parse throws. *)

Inductive node : Type :=
| Directory
| File (parsed : option json).

Definition FileSystem := path -> option node.

(** A filesystem given by the finite list of what it holds. *)
Definition mkFs (entries : list (path * node)) : FileSystem :=
  fun p =>
    match find (fun e => path_eqb (fst e) p) entries with
    | Some e => Some (snd e)
    | None => None
    end.

Definition existsSync (fs : FileSystem) (p : path) : bool :=
  match fs p with
  | Some _ => true
  | None => false
  end.

(** [JSON.parse(fs.readFileSync(p, 'utf8'))]; [None] when either throws. *)
Definition readJson (fs : FileSystem) (p : path) : option json :=
  match fs p with
  | Some (File (Some j)) => Some j
  | _ => None
  end.

(** ** Project structure *)

Record ProjectStructure : Type := mkStructure {
  localRoot : path;
  monorepoRoot : option path;
  gitRoot : option path
}.

Definition monorepoFiles : list string :=
  ["pnpm-workspace.yaml"; "lerna.json"; "nx.json"; "rush.json"].

Definition monorepoLockFiles : list string :=
  ["pnpm-lock.yaml"; "yarn.lock"; "package-lock.json"; "bun.lockb"; "bun.lock"].

Definition isMonorepoRoot (fs : FileSystem) (dir : path) : bool :=
  if existsb (fun file => existsSync fs (join dir file)) monorepoFiles then true
  else
    let hasLockFile := existsb (fun file => existsSync fs (join dir file)) monorepoLockFiles in
    if hasLockFile then
      let packageJsonPath := join dir "package.json" in
      if existsSync fs packageJsonPath then
        match readJson fs packageJsonPath with
        | Some packageJson => propTruthy (getProp packageJson "workspaces")
        | None => false
        end
      else false
    else false.

(** The variables of the walk in [findProjectStructure].  [visited] is a
    ghost variable: the directories on which the loop body ran, in order. *)
Record WalkState : Type := mkWalk {
  w_localRoot : option path;
  w_gitRoot : option path;
  w_packageJsonDirs : list path;
  visited : list path
}.

Definition walkInit : WalkState := mkWalk None None [] [].

Definition isSome {A} (o : option A) : bool :=
  match o with Some _ => true | None => false end.

(** One run of the loop body at [currentDir], up to the [break] test. *)
Definition walkBody (fs : FileSystem) (currentDir : path) (st : WalkState) : WalkState :=
  let gitRoot :=
    if existsSync fs (join currentDir ".git") then Some currentDir else w_gitRoot st in
  let hasPackageJson := existsSync fs (join currentDir "package.json") in
  let packageJsonDirs :=
    if hasPackageJson then w_packageJsonDirs st ++ [currentDir] else w_packageJsonDirs st in
  let localRoot :=
    if hasPackageJson then
      match w_localRoot st with
      | Some l => Some l
      | None => Some currentDir
      end
    else w_localRoot st in
  mkWalk localRoot gitRoot packageJsonDirs (visited st ++ [currentDir]).

Definition walkBreaks (st : WalkState) : bool :=
  isSome (w_gitRoot st) && (0 <? length (w_packageJsonDirs st))%nat.

(** The [while (currentDir !== path.parse(currentDir).root)] loop; the
    recursive call is on [path.dirname(currentDir)]. *)
Fixpoint walk (fs : FileSystem) (currentDir : path) (st : WalkState) : WalkState :=
  match currentDir with
  | [] => st
  | _ :: parent =>
      let st' := walkBody fs currentDir st in
      if walkBreaks st' then st' else walk fs parent st'
  end.

(** [dir.startsWith(gitRoot)], on the text of the two paths. *)
Definition startsWith (dir gitRoot : path) : bool :=
  String.prefix (render gitRoot) (render dir).

Fixpoint scanMonorepo (fs : FileSystem) (gitRoot : option path) (dirs : list path)
  : option path :=
  match dirs with
  | [] => None
  | dir :: rest =>
      let skipped :=
        match gitRoot with
        | Some g => negb (startsWith dir g)
        | None => false
        end in
      if skipped then scanMonorepo fs gitRoot rest
      else if isMonorepoRoot fs dir then Some dir
      else scanMonorepo fs gitRoot rest
  end.

Definition findProjectStructure (fs : FileSystem) (startDir : path)
  : option ProjectStructure :=
  let st := walk fs startDir walkInit in
  match w_localRoot st with
  | None => None
  | Some l =>
      Some (mkStructure l (scanMonorepo fs (w_gitRoot st) (w_packageJsonDirs st))
                        (w_gitRoot st))
  end.

(** ** Package-manager selection *)

Inductive PackageManager : Type := bun | pnpm | yarn | npm.

Definition pmName (m : PackageManager) : string :=
  match m with
  | bun => "bun"
  | pnpm => "pnpm"
  | yarn => "yarn"
  | npm => "npm"
  end.

(** [['bun', 'pnpm', 'yarn', 'npm'].includes(manager)], with the manager
    it names. *)
Definition pmOfString (s : string) : option PackageManager :=
  if s =? "bun" then Some bun
  else if s =? "pnpm" then Some pnpm
  else if s =? "yarn" then Some yarn
  else if s =? "npm" then Some npm
  else None.

Record Detection : Type := mkDetection {
  manager : PackageManager;
  reason : string
}.

(** The [lockFiles] record of [detectPackageManager], in the order
    [Object.entries] lists it. *)
Definition lockFiles : list (string * PackageManager) :=
  [("bun.lockb", bun); ("bun.lock", bun); ("pnpm-lock.yaml", pnpm);
   ("yarn.lock", yarn); ("package-lock.json", npm)].

(** [[structure.monorepoRoot, structure.localRoot].filter(Boolean)] *)
Definition searchDirs (structure : ProjectStructure) : list path :=
  match monorepoRoot structure with
  | Some m => [m; localRoot structure]
  | None => [localRoot structure]
  end.

(** [dir === structure.monorepoRoot ? 'monorepo root' : 'local'] *)
Definition location (structure : ProjectStructure) (dir : path) : string :=
  match monorepoRoot structure with
  | Some m => if path_eqb dir m then "monorepo root" else "local"
  | None => "local"
  end.

Definition lockReason (structure : ProjectStructure) (dir : path) (lockFile : string)
  : string :=
  lockFile ++ " at " ++ location structure dir
           ++ " (" ++ render (join dir lockFile) ++ ")".

Definition fieldReason (structure : ProjectStructure) (dir : path) : string :=
  "packageManager field at " ++ location structure dir
           ++ " (" ++ render (join dir "package.json") ++ ")".

(** The inner loop over the lock-file table in one directory. *)
Definition lockIn (fs : FileSystem) (dir : path) : option (string * PackageManager) :=
  find (fun e => existsSync fs (join dir (fst e))) lockFiles.

(** The first loop of [detectPackageManager]. *)
Fixpoint lockPass (fs : FileSystem) (structure : ProjectStructure) (dirs : list path)
  : option Detection :=
  match dirs with
  | [] => None
  | dir :: rest =>
      match lockIn fs dir with
      | Some (lockFile, m) => Some (mkDetection m (lockReason structure dir lockFile))
      | None => lockPass fs structure rest
      end
  end.

(** [s.split('@')[0]] *)
Fixpoint beforeAt (s : string) : string :=
  match s with
  | EmptyString => EmptyString
  | String c r => if Ascii.eqb c "@" then EmptyString else String c (beforeAt r)
  end.

(** The body of the second loop in one directory: [None] when the loop
    goes on to the next directory.  A truthy [packageManager] that is not
    a string has no [split]: the call throws and the [catch] swallows it. *)
Definition fieldIn (fs : FileSystem) (structure : ProjectStructure) (dir : path)
  : option Detection :=
  let packageJsonPath := join dir "package.json" in
  if existsSync fs packageJsonPath then
    match readJson fs packageJsonPath with
    | Some packageJson =>
        match getProp packageJson "packageManager" with
        | Value v =>
            if truthy v then
              match v with
              | JStr text =>
                  match pmOfString (beforeAt text) with
                  | Some m => Some (mkDetection m (fieldReason structure dir))
                  | None => None
                  end
              | _ => None
              end
            else None
        | _ => None
        end
    | None => None
    end
  else None.

Fixpoint fieldPass (fs : FileSystem) (structure : ProjectStructure) (dirs : list path)
  : option Detection :=
  match dirs with
  | [] => None
  | dir :: rest =>
      match fieldIn fs structure dir with
      | Some d => Some d
      | None => fieldPass fs structure rest
      end
  end.

Definition detectPackageManager (fs : FileSystem) (structure : ProjectStructure)
  : Detection :=
  match lockPass fs structure (searchDirs structure) with
  | Some d => d
  | None =>
      match fieldPass fs structure (searchDirs structure) with
      | Some d => d
      | None => mkDetection npm "fallback"
      end
  end.

(** ** Execution directory *)

Definition includes (l : list string) (s : string) : bool :=
  existsb (String.eqb s) l.

(** The truthiness of what [hasScript] returns.  Its callers pass one of
    the five script commands as [scriptName]. *)
Definition hasScript (fs : FileSystem) (scriptName : string) (dir : path) : bool :=
  let packageJsonPath := join dir "package.json" in
  if negb (existsSync fs packageJsonPath) then false
  else
    match readJson fs packageJsonPath with
    | Some packageJson =>
        match getProp packageJson "scripts" with
        | Value scripts =>
            if truthy scripts then propTruthy (getProp scripts scriptName) else false
        | _ => false
        end
    | None => false
    end.

Definition rootCommands : list string := ["add"; "install"].

Definition scriptCommands : list string := ["run"; "build"; "dev"; "typecheck"; "lint"].

Definition getExecutionDirectory (fs : FileSystem) (command : string)
    (structure : ProjectStructure) : path :=
  if includes rootCommands command then
    match monorepoRoot structure with
    | Some m => m
    | None => localRoot structure
    end
  else if includes scriptCommands command then
    if hasScript fs command (localRoot structure) then localRoot structure
    else
      match monorepoRoot structure with
      | Some m => if hasScript fs command m then m else localRoot structure
      | None => localRoot structure
      end
  else localRoot structure.

(** ** The process: console output, [process.exit] and the child command *)

Inductive event : Type :=
| ConsoleError (line : string)
| ConsoleLog (line : string)
| Harmonizing (command : string) (args : list string) (m : PackageManager)
| ExecSync (commandLine : string) (cwd : path).

Inductive outcome (A : Type) : Type :=
| Returns (a : A)
| Exits (code : Z).

Arguments Returns {A} a.
Arguments Exits {A} code.

(** A computation of the process: what it emitted, in order, and whether
    it returned or left through [process.exit]. *)
Definition Proc (A : Type) : Type := (list event * outcome A)%type.

Definition ret {A} (a : A) : Proc A := ([], Returns a).

Definition bind {A B} (m : Proc A) (f : A -> Proc B) : Proc B :=
  match m with
  | (t, Returns a) => let (t', o) := f a in (t ++ t', o)
  | (t, Exits code) => (t, Exits code)
  end.

Definition emit (e : event) : Proc unit := ([e], Returns tt).

Definition exit {A} (code : Z) : Proc A := ([], Exits code).

Notation "x <- m ;; k" := (bind m (fun x => k))
  (at level 61, m at next level, right associativity).
Notation "m ;;; k" := (bind m (fun _ => k))
  (at level 61, right associativity).

Definition trace {A} (m : Proc A) : list event := fst m.

Definition result {A} (m : Proc A) : outcome A := snd m.

Definition SUPPORTED_COMMANDS : list string :=
  ["add"; "install"; "run"; "build"; "dev"; "typecheck"; "lint"].

Definition dquote : string := String (ascii_of_nat 34) EmptyString.

Definition newline : string := String (ascii_of_nat 10) EmptyString.

Definition joinWith (sep : string) (l : list string) : string := String.concat sep l.

Definition unsupported {A} (command : string) : Proc A :=
  emit (ConsoleError ("Error: " ++ dquote ++ command ++ dquote
                        ++ " is not a supported command.")) ;;;
  emit (ConsoleError ("Supported commands: " ++ joinWith ", " SUPPORTED_COMMANDS)) ;;;
  exit 1%Z.

(** [Harmonizing] is a ghost event: it marks the entry of the function. *)
Definition harmonizeCommand (command : string) (args : list string)
    (packageManager : PackageManager) : Proc (list string) :=
  emit (Harmonizing command args packageManager) ;;;
  let firstArg := hd_error args in
  if command =? "add" then
    match packageManager with
    | npm => ret ("npm" :: "install" :: args)
    | yarn => ret ("yarn" :: "add" :: args)
    | pnpm => ret ("pnpm" :: "add" :: args)
    | bun => ret ("bun" :: "add" :: args)
    end
  else if command =? "install" then
    match packageManager, (0 <? length args)%nat with
    | bun, true => ret ("bun" :: "add" :: args)
    | _, _ => ret (pmName packageManager :: "install" :: args)
    end
  else if command =? "run" then
    match firstArg with
    | Some (String _ _) => ret (pmName packageManager :: "run" :: args)
    | _ =>
        emit (ConsoleError ("Error: " ++ dquote ++ "run" ++ dquote
                            ++ " command requires a script name")) ;;;
        exit 1%Z
    end
  else if command =? "build" then ret [pmName packageManager; "run"; "build"]
  else if command =? "dev" then ret [pmName packageManager; "run"; "dev"]
  else if command =? "typecheck" then ret [pmName packageManager; "run"; "typecheck"]
  else if command =? "lint" then ret [pmName packageManager; "run"; "lint"]
  else
    unsupported command.

(** What running the child command does to [execSync]: it returns, or it
    throws an error whose [status] is the child's exit status, if any. *)
Inductive childResult : Type :=
| ChildReturns
| ChildThrows (status : option Z).

Definition Child := string -> path -> childResult.

(** [execSync(cmd, { stdio: 'inherit', cwd })] inside the [try] of [main],
    with [process.exit(error.status || 1)] in its [catch]. *)
Definition execSync (child : Child) (commandLine : string) (cwd : path) : Proc unit :=
  emit (ExecSync commandLine cwd) ;;;
  match child commandLine cwd with
  | ChildReturns => ret tt
  | ChildThrows (Some status) => if (status =? 0)%Z then exit 1%Z else exit status
  | ChildThrows None => exit 1%Z
  end.

Definition requireStructure (fs : FileSystem) (cwd : path) : Proc ProjectStructure :=
  match findProjectStructure fs cwd with
  | Some structure => ret structure
  | None =>
      emit (ConsoleError
        "Error: No package.json found in current directory or parent directories.") ;;;
      exit 1%Z
  end.

(** The debug text both branches of [main] build. *)
Definition contextInfo (structure : ProjectStructure) (d : Detection)
    (executionDir : path) : string :=
  let base := ("Using " ++ pmName (manager d) ++ " (" ++ reason d ++ ")")%string in
  let withMonorepo :=
    match monorepoRoot structure with
    | Some m =>
        if negb (path_eqb m (localRoot structure)) then
          (base ++ newline ++ "Monorepo detected: " ++ render m
                ++ newline ++ "Local package: " ++ render (localRoot structure)
                ++ newline ++ "Executing from: " ++ render executionDir)%string
        else base
    | None => base
    end in
  match gitRoot structure with
  | Some g => (withMonorepo ++ newline ++ "Git root: " ++ render g)%string
  | None => withMonorepo
  end.

Definition report (isDebug : bool) (structure : ProjectStructure) (d : Detection)
    (executionDir : path) (commandLine : string) : Proc unit :=
  if isDebug then
    emit (ConsoleLog (contextInfo structure d executionDir
                        ++ newline ++ "Command: " ++ commandLine))
  else
    emit (ConsoleLog ("Using " ++ pmName (manager d) ++ ": " ++ commandLine)).

Definition isDebugFlag (arg : string) : bool := arg =? "--debug".

Definition cleanArgs (args : list string) : list string :=
  filter (fun arg => negb (isDebugFlag arg)) args.

(** [main], with [args] for [process.argv.slice(2)] and [cwd] for
    [process.cwd()].  The second [cleanArgs.length === 0] test of the
    source is unreachable and has no counterpart here. *)
Definition main (fs : FileSystem) (child : Child) (cwd : path) (args : list string)
  : Proc unit :=
  let isDebug := existsb isDebugFlag args in
  match cleanArgs args with
  | [] =>
      structure <- requireStructure fs cwd ;;
      let d := detectPackageManager fs structure in
      let executionDir := localRoot structure in
      report isDebug structure d executionDir (pmName (manager d)) ;;;
      execSync child (pmName (manager d)) executionDir
  | command :: commandArgs =>
      if negb (includes SUPPORTED_COMMANDS command) then unsupported command
      else
        structure <- requireStructure fs cwd ;;
        let d := detectPackageManager fs structure in
        let executionDir := getExecutionDirectory fs command structure in
        finalCommand <- harmonizeCommand command commandArgs (manager d) ;;
        report isDebug structure d executionDir (joinWith " " finalCommand) ;;;
        execSync child (joinWith " " finalCommand) executionDir
  end.

(** ** Notions used to state the properties *)

Definition hasGit (fs : FileSystem) (dir : path) : bool :=
  existsSync fs (join dir ".git").

Definition hasManifest (fs : FileSystem) (dir : path) : bool :=
  existsSync fs (join dir "package.json").

(** The directories from [p] upward, nearest first, the filesystem root
    left out. *)
Fixpoint ancestors (p : path) : list path :=
  match p with
  | [] => []
  | _ :: parent => p :: ancestors parent
  end.

(** The ancestor chain of [p], the filesystem root included. *)
Definition ancestorChain (p : path) : list path := ancestors p ++ [root].

(** [a] is [d] or a directory above it. *)
Definition ancestorOrSelf (a d : path) : Prop := exists below, d = below ++ a.

(** [d] lies strictly below [a]. *)
Definition strictDescendant (d a : path) : Prop :=
  exists below, below <> [] /\ d = below ++ a.

(** The last element of [l], or [d] when [l] is empty. *)
Fixpoint lastOr {A} (d : option A) (l : list A) : option A :=
  match l with
  | [] => d
  | x :: r => lastOr (Some x) r
  end.

Definition hasIndicatorFile (fs : FileSystem) (dir : path) : bool :=
  existsb (fun file => existsSync fs (join dir file)) monorepoFiles.

Definition hasRecognizedLockFile (fs : FileSystem) (dir : path) : bool :=
  existsb (fun file => existsSync fs (join dir file)) monorepoLockFiles.

(** The workspaces condition in the words of the specification: a
    non-empty array, or an object with a [packages] array. *)
Definition declaresNonEmptyWorkspaces (packageJson : json) : bool :=
  match getProp packageJson "workspaces" with
  | Value (JArr (_ :: _)) => true
  | Value (JObj fields) =>
      match lookupField "packages" fields with
      | Some (JArr _) => true
      | _ => false
      end
  | _ => false
  end.

Definition isExec (e : event) : bool :=
  match e with
  | ExecSync _ _ => true
  | _ => false
  end.

(** The fixed second tokens of a harmonized command line. *)
Definition subcommands : list string :=
  ["install"; "add"; "run"; "build"; "dev"; "typecheck"; "lint"].

Definition runUsageError : event :=
  ConsoleError ("Error: " ++ dquote ++ "run" ++ dquote ++ " command requires a script name").

Definition noManifestError : event :=
  ConsoleError "Error: No package.json found in current directory or parent directories.".

(** ** Sample filesystems *)

Definition childOk : Child := fun _ _ => ChildReturns.

Definition repoDir : path := ["repo"].

Definition appDir : path := ["app"; "packages"; "repo"].

(** [/repo] is a git root and a pnpm workspace whose manifest declares
    [scripts.build]; [/repo/packages/app] has a manifest without scripts. *)
Definition fsWorkspace : FileSystem :=
  mkFs [ (repoDir, Directory);
         (join repoDir ".git", Directory);
         (join repoDir "pnpm-workspace.yaml", File None);
         (join repoDir "pnpm-lock.yaml", File None);
         (join repoDir "package.json",
            File (Some (JObj [("name", JStr "repo");
                              ("scripts", JObj [("build", JStr "tsc")])])));
         (appDir, Directory);
         (join appDir "yarn.lock", File None);
         (join appDir "package.json",
            File (Some (JObj [("name", JStr "app");
                              ("packageManager", JStr "yarn@4.1.0")]))) ].

Definition workspaceStructure : ProjectStructure :=
  mkStructure appDir (Some repoDir) (Some repoDir).

(** A lerna monorepo without any lock file; both manifests name a manager. *)
Definition fsFields : FileSystem :=
  mkFs [ (join repoDir "lerna.json", File (Some (JObj [])));
         (join repoDir "package.json",
            File (Some (JObj [("packageManager", JStr "pnpm@8.0.0")])));
         (join appDir "package.json",
            File (Some (JObj [("packageManager", JStr "yarn@4.1.0")]))) ].

Definition wsDir : path := ["ws"].

(** A directory with [yarn.lock] and a manifest holding [workspaces]. *)
Definition fsWithWorkspaces (workspaces : json) : FileSystem :=
  mkFs [ (join wsDir "yarn.lock", File None);
         (join wsDir "package.json",
            File (Some (JObj [("name", JStr "ws"); ("workspaces", workspaces)]))) ].

(** The only manifest is [/package.json]. *)
Definition fsRootManifest : FileSystem :=
  mkFs [ (join root "package.json", File (Some (JObj [("name", JStr "top")])));
         (["srv"], Directory) ].

Definition projDir : path := ["proj"].

(** A single project with a manifest and nothing else. *)
Definition fsPlain : FileSystem :=
  mkFs [ (join projDir "package.json", File (Some (JObj [("name", JStr "proj")]))) ].

Definition deepDir : path := ["c"; "b"; "a"].

(** Nested git markers at [/a/b] and [/a]; the only manifest is in [/a]. *)
Definition fsNestedGit : FileSystem :=
  mkFs [ (join ["a"] ".git", Directory);
         (join ["b"; "a"] ".git", Directory);
         (join ["a"] "package.json", File (Some (JObj [("name", JStr "a")]))) ].

(** ** Notions used for the further properties *)

(** Both kinds of marker occur among the directories [l]. *)
Definition seenBoth (fs : FileSystem) (l : list path) : bool :=
  existsb (hasGit fs) l && existsb (hasManifest fs) l.

(** The walk's variables agree with the directories visited so far. *)
Definition coherent (fs : FileSystem) (st : WalkState) : Prop :=
  w_gitRoot st = lastOr None (filter (hasGit fs) (visited st)) /\
  w_packageJsonDirs st = filter (hasManifest fs) (visited st).

(** No file of the lock-file table exists in any directory of [dirs]. *)
Definition noLockFileIn (fs : FileSystem) (dirs : list path) : Prop :=
  forall dir lockFile m,
    In dir dirs -> In (lockFile, m) lockFiles ->
    existsSync fs (join dir lockFile) = false.

Definition shortcutCommands : list string := ["build"; "dev"; "typecheck"; "lint"].

(** How [main] ends after [execSync], by what the child did. *)
Definition exitOf (r : childResult) : outcome unit :=
  match r with
  | ChildReturns => Returns tt
  | ChildThrows (Some status) => if (status =? 0)%Z then Exits 1%Z else Exits status
  | ChildThrows None => Exits 1%Z
  end.

(** The line [report] prints. *)
Definition reportLine (isDebug : bool) (structure : ProjectStructure) (d : Detection)
    (executionDir : path) (commandLine : string) : string :=
  if isDebug then
    contextInfo structure d executionDir ++ newline ++ "Command: " ++ commandLine
  else "Using " ++ pmName (manager d) ++ ": " ++ commandLine.

Definition isConsoleLog (e : event) : bool :=
  match e with
  | ConsoleLog _ => true
  | _ => false
  end.

(** What the process shows apart from its [console.log] line. *)
Definition withoutLog (t : list event) : list event :=
  filter (fun e => negb (isConsoleLog e)) t.

Definition unsupportedErrors (command : string) : list event :=
  [ConsoleError ("Error: " ++ dquote ++ command ++ dquote
                   ++ " is not a supported command.");
   ConsoleError ("Supported commands: " ++ joinWith ", " SUPPORTED_COMMANDS)].

Definition topDir : path := ["top"].

Definition subDir : path := ["sub"; "top"].

(** The git marker sits in [/top/sub], the manifest and a workspace file
    one level up in [/top]. *)
Definition fsGitBelowManifest : FileSystem :=
  mkFs [ (join subDir ".git", Directory);
         (join topDir "pnpm-workspace.yaml", File None);
         (join topDir "package.json", File (Some (JObj [("name", JStr "top")]))) ].

(** A lerna monorepo without lock files whose root manifest names a
    manager the program does not know. *)
Definition fsForeignField : FileSystem :=
  mkFs [ (join repoDir "lerna.json", File (Some (JObj [])));
         (join repoDir "package.json",
            File (Some (JObj [("packageManager", JStr "deno@2.0.0")])));
         (join appDir "package.json",
            File (Some (JObj [("packageManager", JStr "yarn@4.1.0")]))) ].

Definition fieldStructure : ProjectStructure :=
  mkStructure appDir (Some repoDir) None.

(** A child that fails with exit status 3. *)
Definition childFails : Child := fun _ _ => ChildThrows (Some 3%Z).

Definition homeProject : path := ["proj"; "u"; "home"].

Definition homeSrc : path := ["src"; "proj"; "u"; "home"].

(** [/home/u/proj] is a git root with a manifest; the walk starts in its
    [src] directory. *)
Definition fsHome : FileSystem :=
  mkFs [ (join homeProject ".git", Directory);
         (join homeProject "package.json", File (Some (JObj [("name", JStr "proj")])));
         (join ["home"] "package.json", File (Some (JObj [("name", JStr "home")]))) ].

(** The words of a command line: its pieces between single spaces. *)
Fixpoint words (s : string) : list string :=
  match s with
  | EmptyString => [EmptyString]
  | String c r =>
      if Ascii.eqb c " " then EmptyString :: words r
      else
        match words r with
        | w :: ws => String c w :: ws
        | [] => [String c EmptyString]
        end
  end.

(** The command line holds [--debug] as a word of its own. *)
Definition hasDebugWord (commandLine : string) : Prop :=
  In "--debug" (words commandLine).

(** * Properties *)

(** ** Lists and paths *)

Lemma path_eqb_refl (p : path) : path_eqb p p = true.
Proof.
  induction p as [|a p IH]; simpl; [reflexivity|].
  now rewrite String.eqb_refl, IH.
Qed.

Lemma path_eqb_eq (p q : path) : path_eqb p q = true <-> p = q.
Proof.
  split.
  - revert q; induction p as [|a p IH]; intros [|b q]; simpl; try easy.
    intros H. apply andb_prop in H as [Hab Hpq].
    apply String.eqb_eq in Hab. apply IH in Hpq. now subst.
  - intros ->. apply path_eqb_refl.
Qed.

Lemma lastOr_app {A} (d : option A) (l : list A) (x : A) :
  lastOr d (l ++ [x]) = Some x.
Proof.
  revert d; induction l as [|y l IH]; intros d; simpl; [reflexivity|apply IH].
Qed.

Lemma lastOr_nil_iff {A} (l : list A) : lastOr None l = None <-> l = [].
Proof.
  split; [|now intros ->].
  destruct l as [|x l] using rev_ind; [reflexivity|].
  now rewrite lastOr_app.
Qed.

Lemma lastOr_cons {A} (d : option A) (x : A) (l : list A) :
  lastOr d (x :: l) = lastOr (Some x) l.
Proof. reflexivity. Qed.

Lemma lastOr_some_app {A} (d : option A) (l1 l2 : list A) :
  lastOr d (l1 ++ l2) = lastOr (lastOr d l1) l2.
Proof.
  revert d; induction l1 as [|x l1 IH]; intros d; simpl; [reflexivity|apply IH].
Qed.

(** The last element of a filtered list splits the list around it. *)
Lemma lastOr_filter_split {A} (f : A -> bool) (l : list A) (g : A) :
  lastOr None (filter f l) = Some g ->
  exists before after,
    l = before ++ g :: after /\ f g = true /\ forall d, In d after -> f d = false.
Proof.
  induction l as [|x l IH] using rev_ind; [discriminate|].
  rewrite filter_app; simpl. destruct (f x) eqn:Hx.
  - rewrite lastOr_app. intros [= ->].
    exists l, []. repeat split; [assumption | intros d []].
  - rewrite app_nil_r. intros H. destruct (IH H) as (b & a & -> & Hg & Ha).
    exists b, (a ++ [x]). rewrite <- app_assoc. repeat split; [assumption|].
    intros d Hd. apply in_app_iff in Hd as [Hd | [<- | []]]; auto.
Qed.

Lemma ancestors_suffix (p d : path) : In d (ancestors p) -> ancestorOrSelf d p.
Proof.
  induction p as [|a p IH]; simpl; [intros []|].
  intros [<- | H].
  - now exists [].
  - destruct (IH H) as [below ->]. now exists (a :: below).
Qed.

Lemma ancestors_nonroot (p d : path) : In d (ancestors p) -> d <> root.
Proof.
  induction p as [|a p IH]; simpl; [intros []|].
  intros [<- | H]; [discriminate | auto].
Qed.

Lemma suffix_in_ancestors (below d : path) :
  d <> root -> In d (ancestors (below ++ d)).
Proof.
  intros Hd. induction below as [|a below IH]; simpl.
  - destruct d; [now elim Hd | now left].
  - now right.
Qed.

(** The nearest hit in the chain lies at or below every other hit. *)
Lemma first_hit_is_nearest (f : path -> bool) (p l m : path) :
  hd_error (filter f (ancestors p)) = Some l ->
  In m (ancestors p) -> f m = true -> ancestorOrSelf m l.
Proof.
  induction p as [|a p IH]; simpl; [intros _ []|].
  destruct (f (a :: p)) eqn:Hf; simpl.
  - intros [= <-] Hm _. now apply (ancestors_suffix (a :: p)).
  - intros Hl [<- | Hm] Hfm; [congruence | now apply IH].
Qed.

Lemma first_hit_nothing_nearer (f : path -> bool) (p l : path) :
  hd_error (filter f (ancestors p)) = Some l ->
  exists nearer farther,
    ancestors p = nearer ++ l :: farther /\ f l = true /\
    forall d, In d nearer -> f d = false.
Proof.
  induction (ancestors p) as [|x xs IH]; simpl; [discriminate|].
  destruct (f x) eqn:Hf; simpl.
  - intros [= <-]. exists [], xs. repeat split; [assumption | intros d []].
  - intros H. destruct (IH H) as (n & r & -> & Hl & Hn).
    exists (x :: n), r. repeat split; [assumption|].
    intros d [<- | Hd]; auto.
Qed.

Lemma hd_error_filter_none {A} (f : A -> bool) (l : list A) :
  hd_error (filter f l) = None <-> forall d, In d l -> f d = false.
Proof.
  induction l as [|x l IH]; simpl; [easy|].
  destruct (f x) eqn:Hf; simpl.
  - split; [discriminate|]. intros H. specialize (H x (or_introl eq_refl)). congruence.
  - rewrite IH. split; [intros H d [<- | Hd]; auto | intros H d Hd; auto].
Qed.

Lemma no_strict_descendant (a d : path) :
  ancestorOrSelf a d -> ~ strictDescendant a d.
Proof.
  intros [below ->] (below' & Hne & H).
  apply (f_equal (@length string)) in H. rewrite !length_app in H.
  destruct below' as [|b below']; [now elim Hne | simpl in H; lia].
Qed.

(** ** The upward walk *)

Section Walk.

Variable fs : FileSystem.

Lemma walkBody_fields (cur : path) (st : WalkState) :
  visited (walkBody fs cur st) = visited st ++ [cur] /\
  w_packageJsonDirs (walkBody fs cur st)
    = w_packageJsonDirs st ++ filter (hasManifest fs) [cur] /\
  w_gitRoot (walkBody fs cur st) = lastOr (w_gitRoot st) (filter (hasGit fs) [cur]) /\
  w_localRoot (walkBody fs cur st)
    = match w_localRoot st with
      | Some l => Some l
      | None => hd_error (filter (hasManifest fs) [cur])
      end.
Proof.
  unfold walkBody, hasGit, hasManifest; simpl.
  destruct (existsSync fs (join cur ".git")),
           (existsSync fs (join cur "package.json")),
           (w_localRoot st); simpl; rewrite ?app_nil_r; auto.
Qed.

(** The loop in the shape of the source: nothing happens at the filesystem
    root; elsewhere the body runs and, unless it breaks, the walk goes on
    from [path.dirname(currentDir)]. *)
Lemma walk_unfold (cur : path) (st : WalkState) :
  walk fs cur st
    = if path_eqb cur root then st
      else if walkBreaks (walkBody fs cur st) then walkBody fs cur st
      else walk fs (dirname cur) (walkBody fs cur st).
Proof. destruct cur; reflexivity. Qed.

(** What the loop leaves behind, in terms of the stretch [pre] of the
    chain it went through. *)
Lemma walk_spec (cur : path) : forall st : WalkState,
  exists pre post,
    ancestors cur = pre ++ post /\
    visited (walk fs cur st) = visited st ++ pre /\
    w_packageJsonDirs (walk fs cur st)
      = w_packageJsonDirs st ++ filter (hasManifest fs) pre /\
    w_gitRoot (walk fs cur st) = lastOr (w_gitRoot st) (filter (hasGit fs) pre) /\
    w_localRoot (walk fs cur st)
      = match w_localRoot st with
        | Some l => Some l
        | None => hd_error (filter (hasManifest fs) pre)
        end /\
    (post <> [] -> walkBreaks (walk fs cur st) = true).
Proof.
  induction cur as [|a parent IH]; intros st.
  - exists [], []. simpl. rewrite !app_nil_r.
    destruct (w_localRoot st); repeat split; auto; congruence.
  - simpl walk. simpl ancestors.
    destruct (walkBody_fields (a :: parent) st) as (Hv & Hd & Hg & Hl).
    destruct (walkBreaks (walkBody fs (a :: parent) st)) eqn:Hb.
    + exists [a :: parent], (ancestors parent). repeat split; auto.
    + destruct (IH (walkBody fs (a :: parent) st))
        as (pre & post & Hanc & Hv' & Hd' & Hg' & Hl' & Hbr).
      exists ((a :: parent) :: pre), post. repeat split; auto.
      * simpl. now rewrite Hanc.
      * rewrite Hv', Hv, <- app_assoc. reflexivity.
      * rewrite Hd', Hd, <- app_assoc. simpl.
        destruct (hasManifest fs (a :: parent)); reflexivity.
      * rewrite Hg', Hg. simpl.
        destruct (hasGit fs (a :: parent)); reflexivity.
      * rewrite Hl', Hl. simpl.
        destruct (w_localRoot st), (hasManifest fs (a :: parent)); reflexivity.
Qed.

Lemma walk_from_start (start : path) :
  exists post,
    ancestors start = visited (walk fs start walkInit) ++ post /\
    w_packageJsonDirs (walk fs start walkInit)
      = filter (hasManifest fs) (visited (walk fs start walkInit)) /\
    w_gitRoot (walk fs start walkInit)
      = lastOr None (filter (hasGit fs) (visited (walk fs start walkInit))) /\
    w_localRoot (walk fs start walkInit)
      = hd_error (filter (hasManifest fs) (visited (walk fs start walkInit))) /\
    (post <> [] -> walkBreaks (walk fs start walkInit) = true).
Proof.
  destruct (walk_spec start walkInit) as (pre & post & Ha & Hv & Hd & Hg & Hl & Hb).
  simpl in Hv, Hd, Hg, Hl. subst pre. exists post. auto.
Qed.

(** The local root is the nearest directory of the chain, the filesystem
    root left out, that holds a manifest. *)
Lemma walk_localRoot (start : path) :
  w_localRoot (walk fs start walkInit)
    = hd_error (filter (hasManifest fs) (ancestors start)).
Proof.
  destruct (walk_from_start start) as (post & Ha & Hd & _ & Hl & Hb).
  rewrite Hl, Ha, filter_app.
  destruct (filter (hasManifest fs) (visited (walk fs start walkInit))) eqn:Hf;
    [|reflexivity].
  destruct post as [|p post]; [reflexivity|].
  assert (Hbr : walkBreaks (walk fs start walkInit) = true) by (apply Hb; discriminate).
  unfold walkBreaks in Hbr. rewrite Hd in Hbr. simpl in Hbr.
  now rewrite andb_false_r in Hbr.
Qed.

Lemma scanMonorepo_in (g : option path) (dirs : list path) (m : path) :
  scanMonorepo fs g dirs = Some m -> In m dirs /\ isMonorepoRoot fs m = true.
Proof.
  induction dirs as [|d dirs IH]; simpl; [discriminate|].
  destruct (match g with Some g0 => negb (startsWith d g0) | None => false end).
  - intros H. destruct (IH H). auto.
  - destruct (isMonorepoRoot fs d) eqn:Hm.
    + intros [= <-]. auto.
    + intros H. destruct (IH H). auto.
Qed.

(** Where a monorepo root comes from. *)
Lemma monorepo_candidate (start : path) (s : ProjectStructure) (m : path) :
  findProjectStructure fs start = Some s ->
  monorepoRoot s = Some m ->
  In m (ancestors start) /\ hasManifest fs m = true /\ isMonorepoRoot fs m = true /\
  hd_error (filter (hasManifest fs) (ancestors start)) = Some (localRoot s).
Proof.
  unfold findProjectStructure. intros Hs Hm.
  destruct (w_localRoot (walk fs start walkInit)) as [l|] eqn:Hl; [|discriminate].
  injection Hs as <-. simpl in *.
  apply scanMonorepo_in in Hm as [Hin Hmono].
  destruct (walk_from_start start) as (post & Ha & Hd & _ & _ & _).
  rewrite Hd in Hin. apply filter_In in Hin as [Hv Hman].
  repeat split; auto.
  - rewrite Ha. apply in_app_iff. now left.
  - now rewrite <- walk_localRoot.
Qed.

End Walk.

(** ** The project-structure resolver *)

(** C3: during the ancestor walk the recorded git boundary is the last
    directory with a version-control marker among the directories the walk
    visited before it stopped: the visited directories are an initial
    stretch of the ancestor chain, the boundary is absent exactly when none
    of them holds the marker, and otherwise it holds the marker and no
    directory visited after it (farther from the start) does.  The
    structure returned carries this boundary. *)
Theorem git_boundary_is_last_marker_visited (fs : FileSystem) (start : path) :
  let st := walk fs start walkInit in
  (exists notVisited, ancestors start = visited st ++ notVisited) /\
  w_gitRoot st = lastOr None (filter (hasGit fs) (visited st)) /\
  (w_gitRoot st = None <-> forall d, In d (visited st) -> hasGit fs d = false) /\
  (forall g, w_gitRoot st = Some g ->
     exists nearer farther,
       visited st = nearer ++ g :: farther /\ hasGit fs g = true /\
       forall d, In d farther -> hasGit fs d = false) /\
  (forall s, findProjectStructure fs start = Some s -> gitRoot s = w_gitRoot st).
Proof.
  intros st.
  destruct (walk_from_start fs start) as (post & Ha & _ & Hg & _ & _).
  fold st in Ha, Hg.
  split; [now exists post|]. split; [exact Hg|]. split; [|split].
  - rewrite Hg, lastOr_nil_iff. split.
    + intros Hnil d Hd. destruct (hasGit fs d) eqn:Hgit; [|reflexivity].
      assert (Hin : In d (filter (hasGit fs) (visited st)))
        by (apply filter_In; auto).
      rewrite Hnil in Hin. destruct Hin.
    + intros Hall. destruct (filter (hasGit fs) (visited st)) as [|x l] eqn:Hf;
        [reflexivity|].
      assert (Hin : In x (filter (hasGit fs) (visited st)))
        by (rewrite Hf; now left).
      apply filter_In in Hin as [Hin Hx]. rewrite (Hall x Hin) in Hx. discriminate.
  - intros g Hsome. rewrite Hg in Hsome.
    now apply lastOr_filter_split.
  - intros s. unfold findProjectStructure. fold st.
    destruct (w_localRoot st); [|discriminate]. now intros [= <-].
Qed.

Lemma git_boundary_is_last_marker_visited_witness :
  w_gitRoot (walk fsNestedGit deepDir walkInit) = Some ["a"] /\
  exists nearer farther,
    visited (walk fsNestedGit deepDir walkInit) = nearer ++ ["a"] :: farther /\
    hasGit fsNestedGit ["a"] = true /\
    forall d, In d farther -> hasGit fsNestedGit d = false.
Proof.
  split; [reflexivity|].
  apply (git_boundary_is_last_marker_visited fsNestedGit deepDir). reflexivity.
Defined.

(** Below the filesystem root the resolver finds a structure exactly when
    some directory of the chain holds a manifest, and the local root is
    then the nearest one. *)
Lemma resolver_finds_nearest_below_root (fs : FileSystem) (start : path) :
  (findProjectStructure fs start <> None <->
     exists d, In d (ancestors start) /\ hasManifest fs d = true) /\
  (forall s, findProjectStructure fs start = Some s ->
     exists nearer farther,
       ancestors start = nearer ++ localRoot s :: farther /\
       hasManifest fs (localRoot s) = true /\
       forall d, In d nearer -> hasManifest fs d = false).
Proof.
  unfold findProjectStructure. rewrite walk_localRoot. split.
  - destruct (hd_error (filter (hasManifest fs) (ancestors start))) as [l|] eqn:Hl.
    + split; [intros _ | discriminate].
      destruct (first_hit_nothing_nearer _ _ _ Hl) as (n & f & Ha & Hm & _).
      exists l. split; [|assumption]. rewrite Ha. apply in_app_iff. right. now left.
    + split; [congruence|]. intros (d & Hd & Hm).
      rewrite hd_error_filter_none in Hl. rewrite (Hl d Hd) in Hm. discriminate.
  - intros s.
    destruct (hd_error (filter (hasManifest fs) (ancestors start))) as [l|] eqn:Hl;
      [|discriminate].
    intros [= <-]. simpl. now apply first_hit_nothing_nearer.
Qed.

(** C4: a manifest that sits in the filesystem root is on the ancestor
    chain of every directory, yet the resolver returns no structure when it
    is the only one, from a directory below the root and from the root
    itself; the entry point then reports that no manifest was found. *)
Theorem root_manifest_is_not_found :
  In root (ancestorChain ["srv"]) /\
  hasManifest fsRootManifest root = true /\
  findProjectStructure fsRootManifest ["srv"] = None /\
  findProjectStructure fsRootManifest root = None /\
  main fsRootManifest childOk root ["install"] = ([noManifestError], Exits 1%Z).
Proof.
  repeat split; try reflexivity. simpl. right. now left.
Qed.

(** C6: in every resolved structure with a monorepo root, the monorepo
    root is the local root or a directory above it, and never a directory
    strictly below it. *)
Theorem monorepo_root_above_local_root
    (fs : FileSystem) (start : path) (s : ProjectStructure) (m : path) :
  findProjectStructure fs start = Some s ->
  monorepoRoot s = Some m ->
  ancestorOrSelf m (localRoot s) /\ ~ strictDescendant m (localRoot s).
Proof.
  intros Hs Hm.
  destruct (monorepo_candidate fs start s m Hs Hm) as (Hin & Hman & _ & Hl).
  assert (Ha : ancestorOrSelf m (localRoot s))
    by exact (first_hit_is_nearest _ _ _ _ Hl Hin Hman).
  split; [exact Ha | now apply no_strict_descendant].
Qed.

Lemma monorepo_root_above_local_root_witness :
  ancestorOrSelf repoDir appDir /\ ~ strictDescendant repoDir appDir.
Proof.
  apply (monorepo_root_above_local_root fsWorkspace appDir workspaceStructure repoDir);
    reflexivity.
Defined.

(** C9: in every resolved structure with a monorepo root, the monorepo
    root is one of the visited directories that hold a manifest file, so
    it contains a manifest itself, whichever way it passed the monorepo
    test. *)
Theorem monorepo_root_has_manifest
    (fs : FileSystem) (start : path) (s : ProjectStructure) (m : path) :
  findProjectStructure fs start = Some s ->
  monorepoRoot s = Some m ->
  existsSync fs (join m "package.json") = true /\
  In m (w_packageJsonDirs (walk fs start walkInit)) /\
  isMonorepoRoot fs m = true.
Proof.
  intros Hs Hm.
  destruct (monorepo_candidate fs start s m Hs Hm) as (_ & Hman & Hmono & _).
  repeat split; auto.
  unfold findProjectStructure in Hs.
  destruct (w_localRoot (walk fs start walkInit)); [|discriminate].
  injection Hs as <-. simpl in Hm. now apply scanMonorepo_in in Hm.
Qed.

Lemma monorepo_root_has_manifest_witness :
  existsSync fsFields (join repoDir "package.json") = true /\
  In repoDir (w_packageJsonDirs (walk fsFields appDir walkInit)) /\
  isMonorepoRoot fsFields repoDir = true.
Proof.
  apply (monorepo_root_has_manifest fsFields appDir
           (mkStructure appDir (Some repoDir) None) repoDir); reflexivity.
Defined.

(** ** The monorepo test *)

Lemma readJson_exists (fs : FileSystem) (p : path) (j : json) :
  readJson fs p = Some j -> existsSync fs p = true.
Proof.
  unfold readJson, existsSync. destruct (fs p); [reflexivity | discriminate].
Qed.

(** C2, as the code has it: in a directory with a recognized lock file and
    a manifest but no workspace-indicator file, the monorepo test passes
    exactly when the manifest parses and its [workspaces] property is
    truthy.  Every array and every object is truthy, the empty ones too;
    a parse failure, a missing field and the values [null], [false], [0]
    and the empty string do not pass. *)
Theorem workspaces_test_is_truthiness (fs : FileSystem) (dir : path) :
  hasIndicatorFile fs dir = false ->
  hasRecognizedLockFile fs dir = true ->
  hasManifest fs dir = true ->
  (isMonorepoRoot fs dir = true <->
     exists packageJson w,
       readJson fs (join dir "package.json") = Some packageJson /\
       getProp packageJson "workspaces" = Value w /\ truthy w = true) /\
  (readJson fs (join dir "package.json") = None -> isMonorepoRoot fs dir = false) /\
  (forall packageJson,
     readJson fs (join dir "package.json") = Some packageJson ->
     getProp packageJson "workspaces" = Undefined -> isMonorepoRoot fs dir = false) /\
  (forall packageJson w,
     readJson fs (join dir "package.json") = Some packageJson ->
     getProp packageJson "workspaces" = Value w ->
     isMonorepoRoot fs dir =
       match w with
       | JArr _ | JObj _ => true
       | JNull => false
       | JBool b => b
       | JNum n => negb (n =? 0)%Z
       | JStr text => negb (text =? EmptyString)
       end).
Proof.
  unfold hasIndicatorFile, hasRecognizedLockFile, hasManifest, isMonorepoRoot.
  intros -> -> ->.
  destruct (readJson fs (join dir "package.json")) as [j|] eqn:Hj.
  - repeat split.
    + destruct (getProp j "workspaces") as [| |w] eqn:Hw; simpl; try discriminate.
      intros Ht. now exists j, w.
    + intros (j' & w & [= <-] & Hw & Ht). now rewrite Hw.
    + discriminate.
    + intros j' [= <-] Hw. now rewrite Hw.
    + intros j' w [= <-] Hw. rewrite Hw. now destruct w.
  - repeat split; try discriminate.
    intros (j' & w & Hcontra & _). discriminate.
Qed.

Lemma workspaces_test_is_truthiness_witness :
  isMonorepoRoot (fsWithWorkspaces (JObj [("packages", JArr [])])) wsDir = true.
Proof.
  apply (workspaces_test_is_truthiness
           (fsWithWorkspaces (JObj [("packages", JArr [])])) wsDir);
    try reflexivity.
  exists (JObj [("name", JStr "ws"); ("workspaces", JObj [("packages", JArr [])])]),
         (JObj [("packages", JArr [])]).
  repeat split; reflexivity.
Defined.

(** C2 as stated fails: with [yarn.lock] and a manifest whose [workspaces]
    is the empty array the test passes, though the manifest declares no
    non-empty workspaces field. *)
Lemma empty_workspaces_qualifies :
  ~ (hasIndicatorFile (fsWithWorkspaces (JArr [])) wsDir = false ->
     hasRecognizedLockFile (fsWithWorkspaces (JArr [])) wsDir = true ->
     hasManifest (fsWithWorkspaces (JArr [])) wsDir = true ->
     (isMonorepoRoot (fsWithWorkspaces (JArr [])) wsDir = true <->
        exists packageJson,
          readJson (fsWithWorkspaces (JArr [])) (join wsDir "package.json")
            = Some packageJson /\
          declaresNonEmptyWorkspaces packageJson = true)).
Proof.
  intros H.
  destruct (H eq_refl eq_refl eq_refl) as [Hqualifies _].
  destruct (Hqualifies eq_refl) as (packageJson & Hread & Hdeclares).
  injection Hread as <-. discriminate Hdeclares.
Qed.

(** ** The package-manager selector *)

Section Selector.

Variable fs : FileSystem.
Variable s : ProjectStructure.

Lemma lockIn_sound (dir : path) (lockFile : string) (m : PackageManager) :
  lockIn fs dir = Some (lockFile, m) ->
  In (lockFile, m) lockFiles /\ existsSync fs (join dir lockFile) = true.
Proof. unfold lockIn. intros H. now apply find_some in H. Qed.

Lemma lockIn_complete (dir : path) (lockFile : string) (m : PackageManager) :
  In (lockFile, m) lockFiles -> existsSync fs (join dir lockFile) = true ->
  exists lockFile' m', lockIn fs dir = Some (lockFile', m').
Proof.
  intros Hin Hex. unfold lockIn.
  destruct (find (fun e => existsSync fs (join dir (fst e))) lockFiles)
    as [[f' m']|] eqn:Hf; [now exists f', m'|].
  apply (find_none _ _ Hf) in Hin. simpl in Hin. congruence.
Qed.

Lemma lockPass_finds (dirs : list path) (dir : path) (lockFile : string)
    (m : PackageManager) :
  In dir dirs -> lockIn fs dir = Some (lockFile, m) ->
  exists dir' lockFile' m',
    In dir' dirs /\ lockIn fs dir' = Some (lockFile', m') /\
    lockPass fs s dirs = Some (mkDetection m' (lockReason s dir' lockFile')).
Proof.
  induction dirs as [|d dirs IH]; simpl; [intros []|].
  intros Hin Hlock.
  destruct (lockIn fs d) as [[f' m']|] eqn:Hd.
  - exists d, f', m'. auto.
  - destruct Hin as [-> | Hin]; [congruence|].
    destruct (IH Hin Hlock) as (d' & f' & m' & Hin' & Hl' & Hp).
    exists d', f', m'. auto.
Qed.

Lemma lockPass_none (dirs : list path) :
  (forall dir lockFile m,
     In dir dirs -> In (lockFile, m) lockFiles ->
     existsSync fs (join dir lockFile) = false) ->
  lockPass fs s dirs = None.
Proof.
  induction dirs as [|d dirs IH]; simpl; [reflexivity|].
  intros Hnone.
  destruct (lockIn fs d) as [[f m]|] eqn:Hd.
  - apply lockIn_sound in Hd as [Hin Hex].
    rewrite (Hnone d f m (or_introl eq_refl) Hin) in Hex. discriminate.
  - apply IH. intros dir f m Hin. apply Hnone. now right.
Qed.

Lemma location_monorepo (mr : path) :
  monorepoRoot s = Some mr -> location s mr = "monorepo root".
Proof. unfold location. intros ->. now rewrite path_eqb_refl. Qed.

Lemma fieldIn_string (dir : path) (packageJson : json) (text : string)
    (m : PackageManager) :
  readJson fs (join dir "package.json") = Some packageJson ->
  getProp packageJson "packageManager" = Value (JStr text) ->
  pmOfString (beforeAt text) = Some m ->
  fieldIn fs s dir = Some (mkDetection m (fieldReason s dir)).
Proof.
  intros Hread Hprop Hpm. unfold fieldIn.
  rewrite (readJson_exists _ _ _ Hread), Hread, Hprop, Hpm.
  destruct text; [discriminate Hpm | reflexivity].
Qed.

End Selector.

(** C5: the selector searches [monorepoRoot, localRoot] in that order and
    finishes the lock-file pass over all of them before it reads any
    manifest field.  A lock file in any search directory makes the answer
    a lock-file answer, whatever the manifests say; a lock file in the
    monorepo root makes it a lock file of the monorepo root, whatever the
    local root holds; and with no lock file anywhere a recognized
    [packageManager] field in the monorepo root's manifest decides,
    whatever the local manifest says. *)
Theorem lock_files_first_monorepo_first (fs : FileSystem) (s : ProjectStructure) :
  searchDirs s
    = match monorepoRoot s with
      | Some mr => [mr; localRoot s]
      | None => [localRoot s]
      end /\
  (forall dir lockFile m,
     In dir (searchDirs s) -> In (lockFile, m) lockFiles ->
     existsSync fs (join dir lockFile) = true ->
     exists dir' lockFile' m',
       In dir' (searchDirs s) /\ In (lockFile', m') lockFiles /\
       existsSync fs (join dir' lockFile') = true /\
       detectPackageManager fs s = mkDetection m' (lockReason s dir' lockFile')) /\
  (forall mr lockFile m,
     monorepoRoot s = Some mr -> In (lockFile, m) lockFiles ->
     existsSync fs (join mr lockFile) = true ->
     exists lockFile' m',
       In (lockFile', m') lockFiles /\ existsSync fs (join mr lockFile') = true /\
       detectPackageManager fs s
         = mkDetection m' (lockFile' ++ " at monorepo root ("
                                     ++ render (join mr lockFile') ++ ")")) /\
  (forall mr packageJson text m,
     monorepoRoot s = Some mr ->
     (forall dir lockFile m',
        In dir (searchDirs s) -> In (lockFile, m') lockFiles ->
        existsSync fs (join dir lockFile) = false) ->
     readJson fs (join mr "package.json") = Some packageJson ->
     getProp packageJson "packageManager" = Value (JStr text) ->
     pmOfString (beforeAt text) = Some m ->
     detectPackageManager fs s
       = mkDetection m ("packageManager field at monorepo root ("
                          ++ render (join mr "package.json") ++ ")")).
Proof.
  split; [reflexivity|]. split; [|split].
  - intros dir f m Hdir Hin Hex.
    destruct (lockIn_complete fs dir f m Hin Hex) as (f1 & m1 & Hl).
    destruct (lockPass_finds fs s _ dir f1 m1 Hdir Hl) as (d' & f' & m' & Hd' & Hl' & Hp).
    apply lockIn_sound in Hl' as [Hin' Hex'].
    exists d', f', m'. unfold detectPackageManager. rewrite Hp. auto.
  - intros mr f m Hmr Hin Hex.
    destruct (lockIn_complete fs mr f m Hin Hex) as (f' & m' & Hl).
    exists f', m'. destruct (lockIn_sound fs mr f' m' Hl) as [Hin' Hex'].
    repeat split; auto.
    unfold detectPackageManager, searchDirs. rewrite Hmr. simpl. rewrite Hl.
    unfold lockReason. now rewrite (location_monorepo s mr Hmr).
  - intros mr j text m Hmr Hnone Hread Hprop Hpm.
    unfold detectPackageManager. rewrite (lockPass_none fs s _ Hnone).
    unfold searchDirs. rewrite Hmr. simpl.
    rewrite (fieldIn_string fs s mr j text m Hread Hprop Hpm).
    unfold fieldReason. now rewrite (location_monorepo s mr Hmr).
Qed.

Lemma lock_files_first_monorepo_first_witness :
  (exists dir' lockFile' m',
     In dir' (searchDirs workspaceStructure) /\ In (lockFile', m') lockFiles /\
     existsSync fsWorkspace (join dir' lockFile') = true /\
     detectPackageManager fsWorkspace workspaceStructure
       = mkDetection m' (lockReason workspaceStructure dir' lockFile')) /\
  (exists lockFile' m',
     In (lockFile', m') lockFiles /\
     existsSync fsWorkspace (join repoDir lockFile') = true /\
     detectPackageManager fsWorkspace workspaceStructure
       = mkDetection m' (lockFile' ++ " at monorepo root ("
                                   ++ render (join repoDir lockFile') ++ ")")) /\
  detectPackageManager fsFields (mkStructure appDir (Some repoDir) None)
    = mkDetection pnpm ("packageManager field at monorepo root ("
                          ++ render (join repoDir "package.json") ++ ")").
Proof.
  split; [|split].
  - apply (lock_files_first_monorepo_first fsWorkspace workspaceStructure)
      with (dir := appDir) (lockFile := "yarn.lock") (m := yarn).
    + simpl. right. now left.
    + simpl. do 3 right. now left.
    + reflexivity.
  - apply (lock_files_first_monorepo_first fsWorkspace workspaceStructure)
      with (lockFile := "pnpm-lock.yaml") (m := pnpm).
    + reflexivity.
    + simpl. do 2 right. now left.
    + reflexivity.
  - apply (lock_files_first_monorepo_first fsFields
             (mkStructure appDir (Some repoDir) None))
      with (packageJson := JObj [("packageManager", JStr "pnpm@8.0.0")])
           (text := "pnpm@8.0.0").
    + reflexivity.
    + intros dir lockFile m' Hdir Hlock. simpl in Hdir, Hlock.
      destruct Hdir as [<- | [<- | []]];
        repeat (destruct Hlock as [[= <- <-] | Hlock]; [reflexivity|]);
        destruct Hlock.
    + reflexivity.
    + reflexivity.
    + reflexivity.
Defined.

(** ** The command harmonizer *)

(** C8: with bun, [install] followed by at least one argument becomes
    [bun add <args>] and [install] alone stays [bun install]; with npm,
    yarn and pnpm, [install] always becomes [<manager> install <args>]. *)
Theorem install_harmonization (args : list string) :
  result (harmonizeCommand "install" args bun)
    = Returns (match args with
               | [] => ["bun"; "install"]
               | _ :: _ => "bun" :: "add" :: args
               end) /\
  result (harmonizeCommand "install" args npm) = Returns ("npm" :: "install" :: args) /\
  result (harmonizeCommand "install" args yarn) = Returns ("yarn" :: "install" :: args) /\
  result (harmonizeCommand "install" args pnpm) = Returns ("pnpm" :: "install" :: args).
Proof. destruct args; repeat split; reflexivity. Qed.

Ltac harmonize_cases command :=
  unfold harmonizeCommand;
  destruct (command =? "add"); [|
  destruct (command =? "install"); [|
  destruct (command =? "run"); [|
  destruct (command =? "build"); [|
  destruct (command =? "dev"); [|
  destruct (command =? "typecheck"); [|
  destruct (command =? "lint")]]]]]].

(** Every token the harmonizer returns is the manager's name, a fixed
    subcommand, or one of the arguments. *)
Lemma harmonize_tokens (command : string) (args : list string) (m : PackageManager)
    (tokens : list string) :
  result (harmonizeCommand command args m) = Returns tokens ->
  forall t, In t tokens -> t = pmName m \/ In t subcommands \/ In t args.
Proof.
  harmonize_cases command.
  - destruct m; simpl; intros [= <-] t [<- | [<- | Ht]]; simpl; auto 10.
  - destruct m, args as [|a args]; simpl; intros [= <-] t [<- | [<- | Ht]];
      simpl; auto 10.
  - destruct args as [|[|c a] args]; simpl; try discriminate.
    intros [= <-] t [<- | [<- | Ht]]; simpl; auto 10.
  - simpl; intros [= <-] t [<- | [<- | [<- | []]]]; simpl; auto 10.
  - simpl; intros [= <-] t [<- | [<- | [<- | []]]]; simpl; auto 10.
  - simpl; intros [= <-] t [<- | [<- | [<- | []]]]; simpl; auto 10.
  - simpl; intros [= <-] t [<- | [<- | [<- | []]]]; simpl; auto 10.
  - simpl; discriminate.
Qed.

(** The harmonizer itself starts no child process. *)
Lemma harmonize_no_exec (command : string) (args : list string) (m : PackageManager) :
  forall e, In e (trace (harmonizeCommand command args m)) -> isExec e = false.
Proof.
  harmonize_cases command.
  - destruct m; simpl; intros e [<- | []]; reflexivity.
  - destruct m, args as [|a args]; simpl; intros e [<- | []]; reflexivity.
  - destruct args as [|[|c a] args]; simpl; intros e H;
      repeat (destruct H as [<- | H]; [reflexivity|]); destruct H.
  - simpl; intros e [<- | []]; reflexivity.
  - simpl; intros e [<- | []]; reflexivity.
  - simpl; intros e [<- | []]; reflexivity.
  - simpl; intros e [<- | []]; reflexivity.
  - simpl; intros e H;
      repeat (destruct H as [<- | H]; [reflexivity|]); destruct H.
Qed.

(** ** The entry point *)

Lemma trace_bind {A B} (m : Proc A) (f : A -> Proc B) :
  trace (bind m f)
    = trace m ++ match result m with
                 | Returns a => trace (f a)
                 | Exits _ => []
                 end.
Proof.
  destruct m as [t [a|code]]; simpl.
  - now destruct (f a).
  - now rewrite app_nil_r.
Qed.

Lemma result_bind {A B} (m : Proc A) (f : A -> Proc B) :
  result (bind m f)
    = match result m with
      | Returns a => result (f a)
      | Exits code => Exits code
      end.
Proof.
  destruct m as [t [a|code]]; simpl; [now destruct (f a) | reflexivity].
Qed.

Lemma report_emits (isDebug : bool) (s : ProjectStructure) (d : Detection)
    (dir : path) (commandLine : string) :
  exists line,
    report isDebug s d dir commandLine = ([ConsoleLog line], Returns tt).
Proof. unfold report, emit. destruct isDebug; eexists; reflexivity. Qed.

Lemma trace_execSync (child : Child) (commandLine : string) (cwd : path) :
  trace (execSync child commandLine cwd) = [ExecSync commandLine cwd].
Proof.
  unfold execSync. rewrite trace_bind. simpl.
  destruct (child commandLine cwd) as [|[status|]]; try reflexivity.
  destruct (status =? 0)%Z; reflexivity.
Qed.

Lemma joinWith_single (sep t : string) : joinWith sep [t] = t.
Proof. reflexivity. Qed.

(** [run] with nothing after it, once the debug flag is gone. *)
Lemma main_run_alone (fs : FileSystem) (child : Child) (cwd : path)
    (args : list string) :
  cleanArgs args = ["run"] ->
  main fs child cwd args
    = match findProjectStructure fs cwd with
      | None => ([noManifestError], Exits 1%Z)
      | Some s =>
          ([Harmonizing "run" [] (manager (detectPackageManager fs s)); runUsageError],
           Exits 1%Z)
      end.
Proof.
  intros Hclean. unfold main, requireStructure. rewrite Hclean. simpl.
  destruct (findProjectStructure fs cwd); reflexivity.
Qed.

(** Every child process the entry point starts runs the bare manager from
    the local root, or the harmonized tokens joined by spaces from the
    execution directory. *)
Lemma main_exec (fs : FileSystem) (child : Child) (cwd : path) (args : list string)
    (commandLine : string) (dir : path) :
  In (ExecSync commandLine dir) (trace (main fs child cwd args)) ->
  exists s,
    findProjectStructure fs cwd = Some s /\
    ((cleanArgs args = [] /\
      commandLine = pmName (manager (detectPackageManager fs s)) /\
      dir = localRoot s) \/
     (exists command commandArgs tokens,
        cleanArgs args = command :: commandArgs /\
        includes SUPPORTED_COMMANDS command = true /\
        result (harmonizeCommand command commandArgs
                  (manager (detectPackageManager fs s))) = Returns tokens /\
        commandLine = joinWith " " tokens /\
        dir = getExecutionDirectory fs command s)).
Proof.
  unfold main, requireStructure.
  destruct (cleanArgs args) as [|command commandArgs] eqn:Hclean.
  - destruct (findProjectStructure fs cwd) as [s|].
    + rewrite trace_bind. cbn [result ret snd trace fst app].
      rewrite trace_bind, trace_execSync.
      destruct (report_emits (existsb isDebugFlag args) s (detectPackageManager fs s)
                  (localRoot s) (pmName (manager (detectPackageManager fs s))))
        as [line ->].
      simpl. intros [H | [H | []]]; [discriminate|].
      injection H as <- <-. exists s. split; [reflexivity|]. now left.
    + simpl. intros [H | []]. discriminate.
  - destruct (includes SUPPORTED_COMMANDS command) eqn:Hsup; simpl.
    + destruct (findProjectStructure fs cwd) as [s|].
      * rewrite trace_bind. cbn [result ret snd trace fst app].
        rewrite trace_bind. intros Hin.
        apply in_app_iff in Hin as [Hin | Hin].
        { apply harmonize_no_exec in Hin. discriminate. }
        destruct (result (harmonizeCommand command commandArgs
                            (manager (detectPackageManager fs s))))
          as [tokens|code] eqn:Hres; [|destruct Hin].
        rewrite trace_bind, trace_execSync in Hin.
        destruct (report_emits (existsb isDebugFlag args) s (detectPackageManager fs s)
                    (getExecutionDirectory fs command s) (joinWith " " tokens))
          as [line Hline].
        rewrite Hline in Hin. simpl in Hin.
        destruct Hin as [H | [H | []]]; [discriminate|].
        injection H as <- <-. exists s. split; [reflexivity|]. right.
        exists command, commandArgs, tokens. auto.
      * simpl. intros [H | []]. discriminate.
    + intros [H | [H | []]]; discriminate.
Qed.

Lemma cleanArgs_spec (args : list string) (a : string) :
  In a (cleanArgs args) <-> In a args /\ a <> "--debug".
Proof.
  unfold cleanArgs, isDebugFlag. rewrite filter_In, negb_true_iff, String.eqb_neq.
  reflexivity.
Qed.

Lemma run_alone_is_fatal (fs : FileSystem) (child : Child) (cwd : path)
    (args : list string) :
  cleanArgs args = ["run"] ->
  result (main fs child cwd args) = Exits 1%Z /\
  (forall e, In e (trace (main fs child cwd args)) -> isExec e = false).
Proof.
  intros Hclean. rewrite (main_run_alone fs child cwd args Hclean).
  destruct (findProjectStructure fs cwd); simpl; split; try reflexivity.
  - intros e [<- | [<- | []]]; reflexivity.
  - intros e [<- | []]; reflexivity.
Qed.

(** C7: [run] with no argument left once the debug flag is stripped is
    fatal.  The process reports an error, exits with code 1 and starts no
    child process; the final command is never printed.  The guard at the
    head of the [run] case stops the input before it is harmonized: for
    every manager the harmonizer reports that [run] requires a script
    name and exits with code 1, and returns no command line.  That is the
    error reported whenever a project structure is found; without one the
    missing-manifest error is reported, with the same exit code. *)
Theorem run_without_script_is_fatal (fs : FileSystem) (child : Child) (cwd : path)
    (args : list string) :
  cleanArgs args = ["run"] ->
  result (main fs child cwd args) = Exits 1%Z /\
  (forall e, In e (trace (main fs child cwd args)) -> isExec e = false) /\
  (forall e, In e (trace (main fs child cwd args)) -> isConsoleLog e = false) /\
  (exists line, In (ConsoleError line) (trace (main fs child cwd args))) /\
  (forall m,
     harmonizeCommand "run" [] m = ([Harmonizing "run" [] m; runUsageError], Exits 1%Z)) /\
  (forall m tokens, result (harmonizeCommand "run" [] m) <> Returns tokens) /\
  (findProjectStructure fs cwd = None ->
     trace (main fs child cwd args) = [noManifestError]) /\
  (forall s, findProjectStructure fs cwd = Some s ->
     trace (main fs child cwd args)
       = [Harmonizing "run" [] (manager (detectPackageManager fs s)); runUsageError]).
Proof.
  intros Hclean.
  destruct (run_alone_is_fatal fs child cwd args Hclean) as [Hexit Hnoexec].
  split; [exact Hexit|]. split; [exact Hnoexec|].
  rewrite (main_run_alone fs child cwd args Hclean).
  destruct (findProjectStructure fs cwd) as [s|]; simpl.
  - split; [intros e [<- | [<- | []]]; reflexivity|].
    split; [eexists; right; left; reflexivity|].
    split; [reflexivity|]. split; [discriminate|].
    split; [discriminate | now intros s' [= <-]].
  - split; [intros e [<- | []]; reflexivity|].
    split; [eexists; left; reflexivity|].
    split; [reflexivity|]. split; [discriminate|].
    split; [reflexivity | discriminate].
Qed.

Lemma run_without_script_is_fatal_witness :
  result (main fsPlain childOk projDir ["--debug"; "run"]) = Exits 1%Z /\
  trace (main fsPlain childOk projDir ["--debug"; "run"])
    = [Harmonizing "run" [] npm; runUsageError].
Proof.
  destruct (run_without_script_is_fatal fsPlain childOk projDir ["--debug"; "run"]
              eq_refl) as (Hexit & _ & _ & _ & _ & _ & _ & Hsome).
  split; [exact Hexit|].
  exact (Hsome (mkStructure projDir None None) eq_refl).
Defined.

(** ** The execution directory *)

(** For the four shortcuts the script looked up is the command itself:
    the local root when its manifest declares it, else the monorepo root
    when there is one and it declares it, else the local root. *)
Lemma shortcut_execution_directory (fs : FileSystem) (s : ProjectStructure)
    (command : string) :
  In command ["build"; "dev"; "typecheck"; "lint"] ->
  getExecutionDirectory fs command s
    = if hasScript fs command (localRoot s) then localRoot s
      else match monorepoRoot s with
           | Some mr => if hasScript fs command mr then mr else localRoot s
           | None => localRoot s
           end.
Proof.
  intros [<- | [<- | [<- | [<- | []]]]]; reflexivity.
Qed.

(** For [run] the script looked up is the one named [run], whatever the
    arguments are. *)
Lemma run_execution_directory (fs : FileSystem) (s : ProjectStructure) :
  getExecutionDirectory fs "run" s
    = if hasScript fs "run" (localRoot s) then localRoot s
      else match monorepoRoot s with
           | Some mr => if hasScript fs "run" mr then mr else localRoot s
           | None => localRoot s
           end.
Proof. reflexivity. Qed.

(** C1: [run build] from [/repo/packages/app], whose manifest declares no
    [build] script, inside the monorepo [/repo], whose manifest declares
    it: the child runs in the local root, while the [build] shortcut on
    the same tree runs in the monorepo root. *)
Theorem run_ignores_script_argument :
  findProjectStructure fsWorkspace appDir = Some workspaceStructure /\
  hasScript fsWorkspace "build" appDir = false /\
  hasScript fsWorkspace "build" repoDir = true /\
  main fsWorkspace childOk appDir ["run"; "build"]
    = ([Harmonizing "run" ["build"] pnpm;
        ConsoleLog "Using pnpm: pnpm run build";
        ExecSync "pnpm run build" appDir], Returns tt) /\
  main fsWorkspace childOk appDir ["build"]
    = ([Harmonizing "build" [] pnpm;
        ConsoleLog "Using pnpm: pnpm run build";
        ExecSync "pnpm run build" repoDir], Returns tt).
Proof. repeat split; reflexivity. Qed.

(** * Further properties *)

(** ** Texts of paths *)

Lemma string_length_app (a b : string) :
  String.length (a ++ b) = String.length a + String.length b.
Proof. induction a as [|c a IH]; simpl; [reflexivity | now rewrite IH]. Qed.

Lemma prefix_length (a b : string) :
  String.prefix a b = true -> String.length a <= String.length b.
Proof.
  revert a; induction b as [|c' b IH]; intros [|c a]; simpl; intros H.
  - lia.
  - discriminate H.
  - lia.
  - destruct (ascii_dec c c'); [|discriminate H].
    apply IH in H. lia.
Qed.

Lemma string_app_assoc (a b c : string) :
  ((a ++ b) ++ c = a ++ (b ++ c))%string.
Proof. induction a as [|x a IH]; simpl; [reflexivity | now rewrite IH]. Qed.

Lemma renderSegs_app (l1 l2 : list string) :
  renderSegs (l1 ++ l2) = (renderSegs l1 ++ renderSegs l2)%string.
Proof.
  induction l1 as [|x l1 IH]; simpl; [reflexivity|].
  now rewrite IH, string_app_assoc.
Qed.

Lemma renderSegs_nonempty (l : list string) :
  l <> [] -> 0 < String.length (renderSegs l).
Proof. destruct l; [congruence | simpl; lia]. Qed.

(** A directory strictly above the boundary does not start with its text. *)
Lemma startsWith_strictly_above (dir below : path) :
  dir <> root -> below <> [] -> startsWith dir (below ++ dir) = false.
Proof.
  intros Hdir Hbelow. unfold startsWith.
  destruct (String.prefix (render (below ++ dir)) (render dir)) eqn:Hp; [|reflexivity].
  apply prefix_length in Hp. unfold render in Hp.
  destruct dir as [|a dir]; [now elim Hdir|].
  destruct (below ++ a :: dir) as [|b rest] eqn:Hcat.
  - destruct below; discriminate.
  - rewrite <- Hcat, rev_app_distr, renderSegs_app, string_length_app in Hp.
    assert (0 < String.length (renderSegs (rev below))).
    { apply renderSegs_nonempty. intros Hr.
      apply (f_equal (@rev string)) in Hr. rewrite rev_involutive in Hr.
      now apply Hbelow. }
    lia.
Qed.

(** Two directories above the same one are comparable. *)
Lemma suffix_comparable (a b m g : path) :
  a ++ m = b ++ g ->
  ancestorOrSelf g m \/ strictDescendant g m.
Proof.
  revert b; induction a as [|x a IH]; intros b H.
  - left. exists b. exact H.
  - destruct b as [|y b].
    + right. exists (x :: a). split; [discriminate | symmetry; exact H].
    + injection H as _ H. now apply IH in H.
Qed.

(** ** Where the walk stops and what it keeps *)

Section WalkFurther.

Variable fs : FileSystem.

Lemma lastOr_isSome {A} (f : A -> bool) (d : option A) (l : list A) :
  isSome (lastOr d (filter f l)) = isSome d || existsb f l.
Proof.
  revert d; induction l as [|x l IH]; intros d; simpl.
  - now rewrite orb_false_r.
  - destruct (f x); simpl; rewrite IH; simpl; [now rewrite orb_true_r | reflexivity].
Qed.

Lemma filter_nonempty (f : path -> bool) (l : list path) :
  (0 <? length (filter f l))%nat = existsb f l.
Proof.
  induction l as [|x l IH]; simpl; [reflexivity|].
  destruct (f x); simpl; [reflexivity | exact IH].
Qed.

Lemma coherent_init : coherent fs walkInit.
Proof. split; reflexivity. Qed.

Lemma walkBody_coherent (cur : path) (st : WalkState) :
  coherent fs st -> coherent fs (walkBody fs cur st).
Proof.
  intros [Hg Hd].
  destruct (walkBody_fields fs cur st) as (Hv & Hd' & Hg' & _).
  split.
  - now rewrite Hg', Hv, filter_app, lastOr_some_app, <- Hg.
  - now rewrite Hd', Hv, filter_app, <- Hd.
Qed.

Lemma walkBreaks_seenBoth (st : WalkState) :
  coherent fs st -> walkBreaks st = seenBoth fs (visited st).
Proof.
  intros [Hg Hd]. unfold walkBreaks, seenBoth.
  now rewrite Hg, Hd, lastOr_isSome, filter_nonempty.
Qed.

Lemma seenBoth_prefix (P R : list path) :
  seenBoth fs (P ++ R) = false -> seenBoth fs P = false.
Proof.
  unfold seenBoth. rewrite !existsb_app.
  destruct (existsb (hasGit fs) P), (existsb (hasManifest fs) P); simpl; auto.
Qed.

Lemma walk_no_early_stop (cur : path) : forall st : WalkState,
  coherent fs st -> walkBreaks st = false ->
  forall P R, visited (walk fs cur st) = P ++ R -> R <> [] -> seenBoth fs P = false.
Proof.
  induction cur as [|a parent IH]; intros st Hco Hnb P R Hsplit HR.
  - simpl in Hsplit. apply (seenBoth_prefix P R).
    now rewrite <- Hsplit, <- walkBreaks_seenBoth.
  - simpl in Hsplit.
    destruct (walkBreaks (walkBody fs (a :: parent) st)) eqn:Hb.
    + destruct (walkBody_fields fs (a :: parent) st) as (Hv & _).
      rewrite Hv in Hsplit.
      destruct (exists_last HR) as (R' & x & ->).
      rewrite app_assoc in Hsplit. apply app_inj_tail in Hsplit as [Hvis _].
      apply (seenBoth_prefix P R').
      now rewrite <- Hvis, <- walkBreaks_seenBoth.
    + exact (IH _ (walkBody_coherent _ _ Hco) Hb P R Hsplit HR).
Qed.

Lemma walk_gitRoot_in (start g : path) :
  w_gitRoot (walk fs start walkInit) = Some g ->
  In g (ancestors start) /\ hasGit fs g = true.
Proof.
  destruct (walk_from_start fs start) as (post & Ha & _ & Hg & _ & _).
  rewrite Hg. intros Hlast.
  apply lastOr_filter_split in Hlast as (b & a & Hv & Hgit & _).
  split; [|assumption].
  rewrite Ha, Hv. apply in_app_iff. left. apply in_app_iff. right. now left.
Qed.

Lemma scanMonorepo_startsWith (g : path) (dirs : list path) (m : path) :
  scanMonorepo fs (Some g) dirs = Some m -> startsWith m g = true.
Proof.
  induction dirs as [|d dirs IH]; simpl; [discriminate|].
  destruct (startsWith d g) eqn:Hs; simpl; [|exact IH].
  destruct (isMonorepoRoot fs d); [|exact IH].
  now intros [= <-].
Qed.

(** A monorepo root sits at or below the git boundary of its walk. *)
Lemma scan_within_boundary (start g m : path) :
  w_gitRoot (walk fs start walkInit) = Some g ->
  scanMonorepo fs (Some g) (w_packageJsonDirs (walk fs start walkInit)) = Some m ->
  ancestorOrSelf g m.
Proof.
  intros Hg Hscan.
  destruct (walk_gitRoot_in start g Hg) as [Hgin _].
  assert (Hstarts := scanMonorepo_startsWith _ _ _ Hscan).
  apply scanMonorepo_in in Hscan as [Hmin _].
  destruct (walk_from_start fs start) as (post & Ha & Hd & _).
  rewrite Hd in Hmin. apply filter_In in Hmin as [Hmv _].
  assert (Hmanc : In m (ancestors start))
    by (rewrite Ha; apply in_app_iff; now left).
  destruct (ancestors_suffix _ _ Hgin) as [bg Hbg].
  destruct (ancestors_suffix _ _ Hmanc) as [bm Hbm].
  destruct (suffix_comparable bm bg m g) as [Hok | (k & Hk & ->)];
    [congruence | exact Hok |].
  rewrite (startsWith_strictly_above m k (ancestors_nonroot _ _ Hmanc) Hk) in Hstarts.
  discriminate.
Qed.

End WalkFurther.

(** X1: the walk goes up the ancestor chain and stops at the first
    directory at or below which both a git marker and a manifest have been
    seen: if it left part of the chain unvisited, both kinds occur among
    the visited directories, and both kinds never occur among the
    directories visited before the last one. *)
Theorem walk_stops_when_both_seen (fs : FileSystem) (start : path) :
  (exists notVisited,
     ancestors start = visited (walk fs start walkInit) ++ notVisited /\
     (notVisited <> [] -> seenBoth fs (visited (walk fs start walkInit)) = true)) /\
  (forall earlier later,
     visited (walk fs start walkInit) = earlier ++ later -> later <> [] ->
     seenBoth fs earlier = false).
Proof.
  split.
  - destruct (walk_spec fs start walkInit) as (pre & post & Ha & Hv & Hd & Hg & _ & Hb).
    simpl in Hv, Hd, Hg. exists post. rewrite Hv. split; [assumption|].
    intros Hpost. rewrite <- Hv, <- walkBreaks_seenBoth; [now apply Hb|].
    split; [now rewrite Hg, Hv | now rewrite Hd, Hv].
  - intros earlier later.
    now apply (walk_no_early_stop fs start walkInit (coherent_init fs)).
Qed.

Lemma walk_stops_when_both_seen_witness :
  visited (walk fsHome homeSrc walkInit) = [homeSrc; homeProject] /\
  seenBoth fsHome [homeSrc] = false.
Proof.
  split; [reflexivity|].
  apply (walk_stops_when_both_seen fsHome homeSrc) with (later := [homeProject]);
    [reflexivity | discriminate].
Defined.

(** X2: in every resolved structure with both a monorepo root and a git
    boundary, the monorepo root is the git boundary or lies below it. *)
Theorem monorepo_root_within_git_boundary
    (fs : FileSystem) (start : path) (s : ProjectStructure) (m g : path) :
  findProjectStructure fs start = Some s ->
  monorepoRoot s = Some m ->
  gitRoot s = Some g ->
  ancestorOrSelf g m.
Proof.
  unfold findProjectStructure.
  destruct (w_localRoot (walk fs start walkInit)); [|discriminate].
  intros [= <-]. simpl. intros Hm Hg. rewrite Hg in Hm.
  exact (scan_within_boundary fs start g m Hg Hm).
Qed.

Lemma monorepo_root_within_git_boundary_witness : ancestorOrSelf repoDir repoDir.
Proof.
  apply (monorepo_root_within_git_boundary fsWorkspace appDir workspaceStructure);
    reflexivity.
Defined.

(** X3: when the git boundary found lies strictly below the local root
    (the nearest git marker is nearer than the nearest manifest), no
    monorepo root is reported, whatever the manifest directory holds. *)
Theorem git_below_manifest_blocks_monorepo
    (fs : FileSystem) (start : path) (s : ProjectStructure) (g : path) :
  findProjectStructure fs start = Some s ->
  gitRoot s = Some g ->
  strictDescendant g (localRoot s) ->
  monorepoRoot s = None.
Proof.
  intros Hs Hg (k & Hk & Hgl).
  destruct (monorepoRoot s) as [m|] eqn:Hm; [exfalso | reflexivity].
  destruct (monorepo_candidate fs start s m Hs Hm) as (Hin & Hman & _ & Hl).
  destruct (first_hit_is_nearest _ _ _ _ Hl Hin Hman) as [b' Hlm].
  unfold findProjectStructure in Hs.
  destruct (w_localRoot (walk fs start walkInit)); [|discriminate].
  injection Hs as <-. simpl in *. rewrite Hg in Hm.
  destruct (scan_within_boundary fs start g m Hg Hm) as [b Hmg].
  apply (f_equal (@length string)) in Hgl, Hlm, Hmg.
  rewrite length_app in Hgl, Hlm, Hmg.
  destruct k; [now elim Hk | simpl in Hgl; lia].
Qed.

Lemma git_below_manifest_blocks_monorepo_witness :
  monorepoRoot (mkStructure topDir None (Some subDir)) = None /\
  isMonorepoRoot fsGitBelowManifest topDir = true.
Proof.
  split; [|reflexivity].
  apply (git_below_manifest_blocks_monorepo fsGitBelowManifest subDir
           (mkStructure topDir None (Some subDir)) subDir);
    [reflexivity | reflexivity |].
  exists ["sub"]. split; [discriminate | reflexivity].
Defined.

(** X4: the three roots of a resolved structure are directories of the
    ancestor chain of the starting directory, never the filesystem root;
    the git boundary holds the git marker. *)
Theorem structure_roots_on_chain
    (fs : FileSystem) (start : path) (s : ProjectStructure) :
  findProjectStructure fs start = Some s ->
  (ancestorOrSelf (localRoot s) start /\ localRoot s <> root) /\
  (forall g, gitRoot s = Some g ->
     ancestorOrSelf g start /\ g <> root /\ hasGit fs g = true) /\
  (forall m, monorepoRoot s = Some m -> ancestorOrSelf m start /\ m <> root).
Proof.
  intros Hs. split; [|split].
  - unfold findProjectStructure in Hs. rewrite walk_localRoot in Hs.
    destruct (hd_error (filter (hasManifest fs) (ancestors start))) as [l|] eqn:Hl;
      [|discriminate].
    injection Hs as <-. simpl.
    destruct (first_hit_nothing_nearer _ _ _ Hl) as (n & f & Ha & _).
    assert (Hin : In l (ancestors start))
      by (rewrite Ha; apply in_app_iff; right; now left).
    split; [now apply ancestors_suffix | now apply (ancestors_nonroot start)].
  - intros g Hg. unfold findProjectStructure in Hs.
    destruct (w_localRoot (walk fs start walkInit)); [|discriminate].
    injection Hs as <-. simpl in Hg.
    destruct (walk_gitRoot_in fs start g Hg) as [Hin Hgit].
    repeat split; [now apply ancestors_suffix | now apply (ancestors_nonroot start)
                   | assumption].
  - intros m Hm.
    destruct (monorepo_candidate fs start s m Hs Hm) as (Hin & _).
    split; [now apply ancestors_suffix | now apply (ancestors_nonroot start)].
Qed.

Lemma structure_roots_on_chain_witness :
  ancestorOrSelf repoDir appDir /\ repoDir <> root /\ hasGit fsWorkspace repoDir = true.
Proof.
  apply (structure_roots_on_chain fsWorkspace appDir workspaceStructure);
    reflexivity.
Defined.

(** ** What the selector answers *)

Section SelectorFurther.

Variable fs : FileSystem.
Variable s : ProjectStructure.

Lemma lockPass_sound (dirs : list path) (d : Detection) :
  lockPass fs s dirs = Some d ->
  exists dir lockFile,
    In dir dirs /\ In (lockFile, manager d) lockFiles /\
    existsSync fs (join dir lockFile) = true /\
    reason d = lockReason s dir lockFile.
Proof.
  induction dirs as [|x dirs IH]; simpl; [discriminate|].
  destruct (lockIn fs x) as [[f m]|] eqn:Hl.
  - intros [= <-]. apply lockIn_sound in Hl as [Hin Hex].
    exists x, f. simpl. auto.
  - intros H. destruct (IH H) as (dir & f & Hin & Hrest).
    exists dir, f. auto.
Qed.

Lemma lockPass_none_inv (dirs : list path) :
  lockPass fs s dirs = None -> noLockFileIn fs dirs.
Proof.
  induction dirs as [|x dirs IH]; simpl; [intros _ dir f m []|].
  destruct (lockIn fs x) as [[f m]|] eqn:Hl; [discriminate|].
  intros H dir f m [<- | Hin] Hf.
  - destruct (existsSync fs (join x f)) eqn:Hex; [|reflexivity].
    destruct (lockIn_complete fs x f m Hf Hex) as (f' & m' & Hsome). congruence.
  - now apply (IH H dir f m).
Qed.

Lemma fieldIn_sound (dir : path) (d : Detection) :
  fieldIn fs s dir = Some d ->
  exists packageJson text,
    readJson fs (join dir "package.json") = Some packageJson /\
    getProp packageJson "packageManager" = Value (JStr text) /\
    pmOfString (beforeAt text) = Some (manager d) /\
    reason d = fieldReason s dir.
Proof.
  unfold fieldIn.
  destruct (existsSync fs (join dir "package.json")); [|discriminate].
  destruct (readJson fs (join dir "package.json")) as [j|] eqn:Hread; [|discriminate].
  destruct (getProp j "packageManager") as [| |v] eqn:Hprop; try discriminate.
  destruct (truthy v); [|discriminate].
  destruct v as [| | |text| |]; try discriminate.
  destruct (pmOfString (beforeAt text)) as [m|] eqn:Hpm; [|discriminate].
  intros [= <-]. exists j, text. auto.
Qed.

Lemma fieldIn_unusable (dir : path) :
  (forall packageJson text,
     readJson fs (join dir "package.json") = Some packageJson ->
     getProp packageJson "packageManager" = Value (JStr text) ->
     pmOfString (beforeAt text) = None) ->
  fieldIn fs s dir = None.
Proof.
  intros Hun. destruct (fieldIn fs s dir) as [d|] eqn:Hf; [|reflexivity].
  destruct (fieldIn_sound dir d Hf) as (j & text & Hr & Hp & Hpm & _).
  rewrite (Hun j text Hr Hp) in Hpm. discriminate.
Qed.

Lemma fieldPass_sound (dirs : list path) (d : Detection) :
  fieldPass fs s dirs = Some d ->
  exists dir, In dir dirs /\ fieldIn fs s dir = Some d.
Proof.
  induction dirs as [|x dirs IH]; simpl; [discriminate|].
  destruct (fieldIn fs s x) as [d'|] eqn:Hf.
  - intros [= <-]. exists x. auto.
  - intros H. destruct (IH H) as (dir & Hin & Hd). exists dir. auto.
Qed.

Lemma lockPass_skips (pre : list path) (rest : list path) :
  noLockFileIn fs pre -> lockPass fs s (pre ++ rest) = lockPass fs s rest.
Proof.
  induction pre as [|x pre IH]; simpl; [reflexivity|].
  intros Hnone.
  destruct (lockIn fs x) as [[f m]|] eqn:Hl.
  - apply lockIn_sound in Hl as [Hin Hex].
    rewrite (Hnone x f m (or_introl eq_refl) Hin) in Hex. discriminate.
  - apply IH. intros dir f m Hin. apply Hnone. now right.
Qed.

End SelectorFurther.

Lemma find_first {A} (f : A -> bool) (before after : list A) (x : A) :
  (forall y, In y before -> f y = false) -> f x = true ->
  find f (before ++ x :: after) = Some x.
Proof.
  intros Hb Hx. induction before as [|y before IH]; simpl.
  - now rewrite Hx.
  - rewrite (Hb y (or_introl eq_refl)). apply IH. intros z Hz. apply Hb. now right.
Qed.

(** X5: whatever the selector answers is backed by what it read.  Either
    a lock file of the answered manager exists in a search directory and
    the reason cites it; or no search directory holds a lock file and a
    manifest of a search directory has a [packageManager] string whose
    part before the first [@] names the answered manager, the reason
    citing the field; or no search directory holds a lock file and the
    answer is npm with reason [fallback]. *)
Theorem detection_is_backed_by_a_signal (fs : FileSystem) (s : ProjectStructure) :
  (exists dir lockFile,
     In dir (searchDirs s) /\
     In (lockFile, manager (detectPackageManager fs s)) lockFiles /\
     existsSync fs (join dir lockFile) = true /\
     reason (detectPackageManager fs s) = lockReason s dir lockFile) \/
  (noLockFileIn fs (searchDirs s) /\
   exists dir packageJson text,
     In dir (searchDirs s) /\
     readJson fs (join dir "package.json") = Some packageJson /\
     getProp packageJson "packageManager" = Value (JStr text) /\
     pmOfString (beforeAt text) = Some (manager (detectPackageManager fs s)) /\
     reason (detectPackageManager fs s) = fieldReason s dir) \/
  (noLockFileIn fs (searchDirs s) /\
   detectPackageManager fs s = mkDetection npm "fallback").
Proof.
  unfold detectPackageManager.
  destruct (lockPass fs s (searchDirs s)) as [d|] eqn:Hlock.
  - left. now apply lockPass_sound.
  - right. apply lockPass_none_inv in Hlock.
    destruct (fieldPass fs s (searchDirs s)) as [d|] eqn:Hfield.
    + left. split; [assumption|].
      destruct (fieldPass_sound fs s _ d Hfield) as (dir & Hin & Hd).
      destruct (fieldIn_sound fs s dir d Hd) as (j & text & Hrest).
      exists dir, j, text. auto.
    + right. auto.
Qed.

(** X6: the lock file that decides is the first one in search-directory
    order and, within that directory, in the order [bun.lockb],
    [bun.lock], [pnpm-lock.yaml], [yarn.lock], [package-lock.json]. *)
Theorem first_lock_file_decides (fs : FileSystem) (s : ProjectStructure)
    (pre post : list path) (dir : path)
    (before after : list (string * PackageManager))
    (lockFile : string) (m : PackageManager) :
  searchDirs s = pre ++ dir :: post ->
  lockFiles = before ++ (lockFile, m) :: after ->
  noLockFileIn fs pre ->
  (forall lockFile' m', In (lockFile', m') before ->
                        existsSync fs (join dir lockFile') = false) ->
  existsSync fs (join dir lockFile) = true ->
  detectPackageManager fs s = mkDetection m (lockReason s dir lockFile).
Proof.
  intros Hdirs Htable Hpre Hbefore Hex.
  unfold detectPackageManager. rewrite Hdirs, (lockPass_skips fs s pre _ Hpre).
  simpl. unfold lockIn. rewrite Htable.
  rewrite (find_first _ before after (lockFile, m)); [reflexivity | | exact Hex].
  intros [f' m'] Hin. simpl. now apply (Hbefore f' m').
Qed.

Lemma first_lock_file_decides_witness :
  detectPackageManager fsWorkspace workspaceStructure
    = mkDetection pnpm (lockReason workspaceStructure repoDir "pnpm-lock.yaml").
Proof.
  apply (first_lock_file_decides fsWorkspace workspaceStructure [] [appDir] repoDir
           [("bun.lockb", bun); ("bun.lock", bun)]
           [("yarn.lock", yarn); ("package-lock.json", npm)]).
  - reflexivity.
  - reflexivity.
  - intros dir lockFile m [].
  - intros lockFile' m' Hin. simpl in Hin.
    destruct Hin as [[= <- <-] | [[= <- <-] | []]]; reflexivity.
  - reflexivity.
Defined.

Lemma pmOfString_pmName (m : PackageManager) : pmOfString (pmName m) = Some m.
Proof. destruct m; reflexivity. Qed.

Lemma beforeAt_versioned (m : PackageManager) (version : string) :
  beforeAt (pmName m ++ "@" ++ version) = pmName m.
Proof. destruct m; reflexivity. Qed.

Lemma beforeAt_bare (m : PackageManager) : beforeAt (pmName m) = pmName m.
Proof. destruct m; reflexivity. Qed.

Lemma fieldPass_none (fs : FileSystem) (s : ProjectStructure) (dirs : list path) :
  (forall dir, In dir dirs -> fieldIn fs s dir = None) ->
  fieldPass fs s dirs = None.
Proof.
  induction dirs as [|x dirs IH]; simpl; [reflexivity|].
  intros H. rewrite (H x (or_introl eq_refl)). apply IH.
  intros dir Hin. apply H. now right.
Qed.

(** X7: with no lock file in any search directory, a manifest of the
    first search directory whose [packageManager] is the name of one of
    the four managers, alone or followed by [@] and any version text,
    selects that manager, the reason citing the field. *)
Theorem packageManager_field_round_trip (fs : FileSystem) (s : ProjectStructure)
    (dir : path) (rest : list path) (packageJson : json)
    (m : PackageManager) (version : string) :
  searchDirs s = dir :: rest ->
  noLockFileIn fs (searchDirs s) ->
  readJson fs (join dir "package.json") = Some packageJson ->
  getProp packageJson "packageManager" = Value (JStr (pmName m ++ "@" ++ version)) \/
  getProp packageJson "packageManager" = Value (JStr (pmName m)) ->
  detectPackageManager fs s = mkDetection m (fieldReason s dir).
Proof.
  intros Hdirs Hnone Hread Hprop.
  unfold detectPackageManager. rewrite (lockPass_none fs s _ Hnone), Hdirs. simpl.
  destruct Hprop as [Hprop | Hprop].
  - rewrite (fieldIn_string fs s dir packageJson _ m Hread Hprop); [reflexivity|].
    now rewrite beforeAt_versioned, pmOfString_pmName.
  - rewrite (fieldIn_string fs s dir packageJson _ m Hread Hprop); [reflexivity|].
    now rewrite beforeAt_bare, pmOfString_pmName.
Qed.

Lemma packageManager_field_round_trip_witness :
  detectPackageManager fsFields fieldStructure
    = mkDetection pnpm (fieldReason fieldStructure repoDir).
Proof.
  apply (packageManager_field_round_trip fsFields fieldStructure repoDir [appDir]
           (JObj [("packageManager", JStr "pnpm@8.0.0")]) pnpm "8.0.0").
  - reflexivity.
  - intros dir lockFile m' Hdir Hlock. simpl in Hdir, Hlock.
    destruct Hdir as [<- | [<- | []]];
      repeat (destruct Hlock as [[= <- <-] | Hlock]; [reflexivity|]);
      destruct Hlock.
  - reflexivity.
  - left. reflexivity.
Defined.

(** X8: with no lock file in any search directory and no manifest there
    whose [packageManager] is a string naming one of the four managers
    (the manifest is missing or unreadable, the field is absent, not a
    string, or names something else), the answer is npm with reason
    [fallback]. *)
Theorem unusable_signals_fall_back_to_npm (fs : FileSystem) (s : ProjectStructure) :
  noLockFileIn fs (searchDirs s) ->
  (forall dir packageJson text,
     In dir (searchDirs s) ->
     readJson fs (join dir "package.json") = Some packageJson ->
     getProp packageJson "packageManager" = Value (JStr text) ->
     pmOfString (beforeAt text) = None) ->
  detectPackageManager fs s = mkDetection npm "fallback".
Proof.
  intros Hnone Hun. unfold detectPackageManager.
  rewrite (lockPass_none fs s _ Hnone), fieldPass_none; [reflexivity|].
  intros dir Hin. apply fieldIn_unusable. intros j text. now apply Hun.
Qed.

Lemma unusable_signals_fall_back_to_npm_witness :
  detectPackageManager fsForeignField (mkStructure repoDir None None)
    = mkDetection npm "fallback".
Proof.
  apply (unusable_signals_fall_back_to_npm fsForeignField (mkStructure repoDir None None)).
  - intros dir lockFile m' Hdir Hlock. simpl in Hdir, Hlock.
    destruct Hdir as [<- | []];
      repeat (destruct Hlock as [[= <- <-] | Hlock]; [reflexivity|]);
      destruct Hlock.
  - intros dir packageJson text Hdir Hread Hprop. simpl in Hdir.
    destruct Hdir as [<- | []]. vm_compute in Hread. injection Hread as <-.
    vm_compute in Hprop. injection Hprop as <-. reflexivity.
Defined.

(** X9: with no lock file in any search directory, when the monorepo
    root differs from the local root and its manifest gives no usable
    [packageManager], a usable [packageManager] of the local manifest
    decides, and the reason says [local]. *)
Theorem local_field_decides_when_root_field_unusable
    (fs : FileSystem) (s : ProjectStructure) (mr : path)
    (packageJson : json) (text : string) (m : PackageManager) :
  monorepoRoot s = Some mr ->
  mr <> localRoot s ->
  noLockFileIn fs (searchDirs s) ->
  (forall rootJson rootText,
     readJson fs (join mr "package.json") = Some rootJson ->
     getProp rootJson "packageManager" = Value (JStr rootText) ->
     pmOfString (beforeAt rootText) = None) ->
  readJson fs (join (localRoot s) "package.json") = Some packageJson ->
  getProp packageJson "packageManager" = Value (JStr text) ->
  pmOfString (beforeAt text) = Some m ->
  detectPackageManager fs s
    = mkDetection m ("packageManager field at local ("
                       ++ render (join (localRoot s) "package.json") ++ ")").
Proof.
  intros Hmr Hneq Hnone Hroot Hread Hprop Hpm.
  unfold detectPackageManager. rewrite (lockPass_none fs s _ Hnone).
  unfold searchDirs. rewrite Hmr. simpl.
  rewrite (fieldIn_unusable fs s mr Hroot).
  rewrite (fieldIn_string fs s _ packageJson text m Hread Hprop Hpm).
  unfold fieldReason, location. rewrite Hmr.
  destruct (path_eqb (localRoot s) mr) eqn:Heq; [|reflexivity].
  apply path_eqb_eq in Heq. now elim Hneq.
Qed.

Lemma local_field_decides_when_root_field_unusable_witness :
  detectPackageManager fsForeignField fieldStructure
    = mkDetection yarn ("packageManager field at local ("
                          ++ render (join appDir "package.json") ++ ")").
Proof.
  apply (local_field_decides_when_root_field_unusable fsForeignField fieldStructure
           repoDir (JObj [("packageManager", JStr "yarn@4.1.0")]) "yarn@4.1.0" yarn).
  - reflexivity.
  - discriminate.
  - intros dir lockFile m' Hdir Hlock. simpl in Hdir, Hlock.
    destruct Hdir as [<- | [<- | []]];
      repeat (destruct Hlock as [[= <- <-] | Hlock]; [reflexivity|]);
      destruct Hlock.
  - intros rootJson rootText Hread Hprop.
    vm_compute in Hread. injection Hread as <-.
    vm_compute in Hprop. injection Hprop as <-. reflexivity.
  - reflexivity.
  - reflexivity.
  - reflexivity.
Defined.

(** ** The monorepo test and the script test *)

(** X10: any one of [pnpm-workspace.yaml], [lerna.json], [nx.json] and
    [rush.json] makes a directory pass the monorepo test, whatever else it
    holds; and a directory with none of them and none of the recognized
    lock files never passes, whatever its manifest declares. *)
Theorem monorepo_test_needs_indicator_or_lock (fs : FileSystem) (dir : path) :
  (forall file, In file monorepoFiles -> existsSync fs (join dir file) = true ->
                isMonorepoRoot fs dir = true) /\
  (hasIndicatorFile fs dir = false -> hasRecognizedLockFile fs dir = false ->
   isMonorepoRoot fs dir = false).
Proof.
  unfold isMonorepoRoot, hasIndicatorFile, hasRecognizedLockFile. split.
  - intros file Hin Hex.
    assert (H : existsb (fun f => existsSync fs (join dir f)) monorepoFiles = true)
      by (apply existsb_exists; now exists file).
    now rewrite H.
  - now intros -> ->.
Qed.

Lemma monorepo_test_needs_indicator_or_lock_witness :
  isMonorepoRoot fsFields repoDir = true /\
  isMonorepoRoot
    (mkFs [(join wsDir "package.json",
              File (Some (JObj [("workspaces", JArr [JStr "packages/*"])])))])
    wsDir = false.
Proof.
  split.
  - apply (monorepo_test_needs_indicator_or_lock fsFields repoDir) with (file := "lerna.json").
    + simpl. right. now left.
    + reflexivity.
  - apply monorepo_test_needs_indicator_or_lock; reflexivity.
Defined.

(** X11: for each of the five script commands, the script of that name
    counts as declared in a directory exactly when the manifest there
    parses to a value whose [scripts] property is truthy and holds a
    truthy entry under that name; so an entry that is the empty string,
    [null], [false] or [0] is not declared, and a missing or unparsable
    manifest declares nothing. *)
Theorem hasScript_declared_iff (fs : FileSystem) (scriptName : string) (dir : path) :
  In scriptName scriptCommands ->
  (hasScript fs scriptName dir = true <->
     exists packageJson scripts entry,
       readJson fs (join dir "package.json") = Some packageJson /\
       getProp packageJson "scripts" = Value scripts /\ truthy scripts = true /\
       getProp scripts scriptName = Value entry /\ truthy entry = true) /\
  (readJson fs (join dir "package.json") = None -> hasScript fs scriptName dir = false) /\
  (forall packageJson fields,
     readJson fs (join dir "package.json") = Some packageJson ->
     getProp packageJson "scripts" = Value (JObj fields) ->
     In (lookupField scriptName fields)
        [None; Some (JStr EmptyString); Some JNull; Some (JBool false); Some (JNum 0)] ->
     hasScript fs scriptName dir = false).
Proof.
  intros _. unfold hasScript. split; [|split].
  - split.
    + destruct (existsSync fs (join dir "package.json")); simpl; [|discriminate].
      destruct (readJson fs (join dir "package.json")) as [j|]; [|discriminate].
      destruct (getProp j "scripts") as [| |scripts] eqn:Hs; try discriminate.
      destruct (truthy scripts) eqn:Ht; [|discriminate].
      destruct (getProp scripts scriptName) as [| |entry] eqn:He; try discriminate.
      simpl. intros Hentry. exists j, scripts, entry. auto.
    + intros (j & scripts & entry & Hread & Hs & Ht & He & Hentry).
      rewrite (readJson_exists _ _ _ Hread), Hread, Hs, Ht, He. exact Hentry.
  - intros ->. now destruct (negb (existsSync fs (join dir "package.json"))).
  - intros j fields -> Hs Hin. rewrite Hs. simpl.
    destruct (negb (existsSync fs (join dir "package.json"))); [reflexivity|].
    destruct Hin as [<- | [<- | [<- | [<- | [<- | []]]]]]; reflexivity.
Qed.

Lemma hasScript_declared_iff_witness :
  hasScript
    (mkFs [(join wsDir "package.json",
              File (Some (JObj [("scripts", JObj [("build", JStr EmptyString)])])))])
    "build" wsDir = false.
Proof.
  apply (hasScript_declared_iff
           (mkFs [(join wsDir "package.json",
                     File (Some (JObj [("scripts", JObj [("build", JStr EmptyString)])])))])
           "build" wsDir)
    with (packageJson := JObj [("scripts", JObj [("build", JStr EmptyString)])])
         (fields := [("build", JStr EmptyString)]).
  - simpl. right. now left.
  - reflexivity.
  - reflexivity.
  - simpl. right. now left.
Defined.

(** ** What the harmonizer returns *)

(** X12: every command line the harmonizer returns begins with the name
    of the selected manager followed by [install], [add] or [run]; what
    follows is the argument list unchanged, or, for the four shortcuts,
    only the shortcut's own name. *)
Theorem harmonized_command_shape (command : string) (args : list string)
    (m : PackageManager) (tokens : list string) :
  result (harmonizeCommand command args m) = Returns tokens ->
  exists sub rest,
    tokens = pmName m :: sub :: rest /\
    In sub ["install"; "add"; "run"] /\
    (rest = args \/ (rest = [command] /\ In command shortcutCommands)).
Proof.
  unfold harmonizeCommand.
  destruct (String.eqb_spec command "add") as [-> | _].
  { destruct m; simpl; intros [= <-]; eexists; eexists;
      (split; [reflexivity | split; [simpl; auto | now left]]). }
  destruct (String.eqb_spec command "install") as [-> | _].
  { destruct m, args as [|a args]; simpl; intros [= <-]; eexists; eexists;
      (split; [reflexivity | split; [simpl; auto | now left]]). }
  destruct (String.eqb_spec command "run") as [-> | _].
  { destruct args as [|[|c a] args]; simpl; try discriminate.
    intros [= <-]. eexists; eexists.
    split; [reflexivity | split; [simpl; auto | now left]]. }
  destruct (String.eqb_spec command "build") as [-> | _].
  { simpl. intros [= <-]. eexists; eexists.
    split; [reflexivity | split; [simpl; auto | right; simpl; auto]]. }
  destruct (String.eqb_spec command "dev") as [-> | _].
  { simpl. intros [= <-]. eexists; eexists.
    split; [reflexivity | split; [simpl; auto | right; simpl; auto]]. }
  destruct (String.eqb_spec command "typecheck") as [-> | _].
  { simpl. intros [= <-]. eexists; eexists.
    split; [reflexivity | split; [simpl; auto | right; simpl; auto]]. }
  destruct (String.eqb_spec command "lint") as [-> | _].
  { simpl. intros [= <-]. eexists; eexists.
    split; [reflexivity | split; [simpl; auto 6 | right; simpl; auto 6]]. }
  simpl. discriminate.
Qed.

Lemma harmonized_command_shape_witness :
  exists sub rest,
    ["bun"; "add"; "react"; "-D"] = pmName bun :: sub :: rest /\
    In sub ["install"; "add"; "run"] /\
    (rest = ["react"; "-D"] \/ (rest = ["install"] /\ In "install" shortcutCommands)).
Proof.
  apply (harmonized_command_shape "install" ["react"; "-D"] bun). reflexivity.
Defined.

(** ** The entry point as a whole *)

Lemma report_eq (isDebug : bool) (s : ProjectStructure) (d : Detection)
    (dir : path) (commandLine : string) :
  report isDebug s d dir commandLine
    = ([ConsoleLog (reportLine isDebug s d dir commandLine)], Returns tt).
Proof. unfold report, reportLine, emit. destruct isDebug; reflexivity. Qed.

Lemma execSync_eq (child : Child) (commandLine : string) (cwd : path) :
  execSync child commandLine cwd
    = ([ExecSync commandLine cwd], exitOf (child commandLine cwd)).
Proof.
  unfold execSync, exitOf, emit, bind, ret, exit.
  destruct (child commandLine cwd) as [|[status|]]; try reflexivity.
  destruct (status =? 0)%Z; reflexivity.
Qed.

(** The whole of [main], case by case. *)
Lemma main_shape (fs : FileSystem) (child : Child) (cwd : path) (args : list string) :
  main fs child cwd args
    = match cleanArgs args with
      | [] =>
          match findProjectStructure fs cwd with
          | None => ([noManifestError], Exits 1%Z)
          | Some s =>
              let d := detectPackageManager fs s in
              ([ConsoleLog (reportLine (existsb isDebugFlag args) s d (localRoot s)
                              (pmName (manager d)));
                ExecSync (pmName (manager d)) (localRoot s)],
               exitOf (child (pmName (manager d)) (localRoot s)))
          end
      | command :: commandArgs =>
          if includes SUPPORTED_COMMANDS command then
            match findProjectStructure fs cwd with
            | None => ([noManifestError], Exits 1%Z)
            | Some s =>
                let d := detectPackageManager fs s in
                let dir := getExecutionDirectory fs command s in
                match harmonizeCommand command commandArgs (manager d) with
                | (t, Returns tokens) =>
                    (t ++ [ConsoleLog (reportLine (existsb isDebugFlag args) s d dir
                                         (joinWith " " tokens));
                           ExecSync (joinWith " " tokens) dir],
                     exitOf (child (joinWith " " tokens) dir))
                | (t, Exits code) => (t, Exits code)
                end
            end
          else (unsupportedErrors command, Exits 1%Z)
      end.
Proof.
  unfold main, requireStructure.
  destruct (cleanArgs args) as [|command commandArgs].
  - destruct (findProjectStructure fs cwd) as [s|]; [|reflexivity].
    unfold bind, ret. rewrite report_eq, execSync_eq. reflexivity.
  - destruct (includes SUPPORTED_COMMANDS command); [|reflexivity]. simpl.
    destruct (findProjectStructure fs cwd) as [s|]; [|reflexivity].
    unfold bind at 1. unfold ret.
    destruct (harmonizeCommand command commandArgs
                (manager (detectPackageManager fs s))) as [t [tokens|code]];
      [|reflexivity].
    unfold bind. rewrite report_eq, execSync_eq. reflexivity.
Qed.

Lemma filter_nothing {A} (f : A -> bool) (l : list A) :
  (forall x, In x l -> f x = false) -> filter f l = [].
Proof.
  induction l as [|x l IH]; simpl; [reflexivity|].
  intros H. rewrite (H x (or_introl eq_refl)). apply IH.
  intros y Hy. apply H. now right.
Qed.

Lemma includes_In (l : list string) (x : string) :
  includes l x = true <-> In x l.
Proof.
  unfold includes. rewrite existsb_exists. split.
  - intros (y & Hin & Heq). apply String.eqb_eq in Heq. now subst.
  - intros Hin. exists x. split; [assumption | apply String.eqb_refl].
Qed.

Lemma executionDirectory_is_a_root (fs : FileSystem) (command : string)
    (s : ProjectStructure) :
  getExecutionDirectory fs command s = localRoot s \/
  monorepoRoot s = Some (getExecutionDirectory fs command s).
Proof.
  unfold getExecutionDirectory.
  destruct (includes rootCommands command).
  - destruct (monorepoRoot s); auto.
  - destruct (includes scriptCommands command); [|now left].
    destruct (hasScript fs command (localRoot s)); [now left|].
    destruct (monorepoRoot s) as [mr|]; [|now left].
    destruct (hasScript fs command mr); auto.
Qed.

(** X13: a first word that is not one of the seven supported commands
    ends the process with exit code 1 and the two usage lines, on every
    filesystem and from every directory, without any child process. *)
Theorem unsupported_command_is_rejected (fs : FileSystem) (child : Child)
    (cwd : path) (args : list string) (command : string) (rest : list string) :
  cleanArgs args = command :: rest ->
  ~ In command SUPPORTED_COMMANDS ->
  main fs child cwd args = (unsupportedErrors command, Exits 1%Z).
Proof.
  intros Hclean Hnot. rewrite main_shape, Hclean.
  destruct (includes SUPPORTED_COMMANDS command) eqn:Hinc; [|reflexivity].
  apply includes_In in Hinc. now elim Hnot.
Qed.

Lemma unsupported_command_is_rejected_witness :
  main fsWorkspace childOk appDir ["--debug"; "test"; "--watch"]
    = (unsupportedErrors "test", Exits 1%Z).
Proof.
  apply (unsupported_command_is_rejected fsWorkspace childOk appDir
           ["--debug"; "test"; "--watch"] "test" ["--watch"]).
  - reflexivity.
  - simpl. intros H.
    repeat (destruct H as [H | H]; [discriminate H|]). exact H.
Defined.

(** X14: when no directory from the current one up to, but not including,
    the filesystem root holds a manifest, the process ends with exit code
    1 and the missing-manifest line, for the bare invocation and for every
    supported command, without any child process. *)
Theorem missing_manifest_is_fatal (fs : FileSystem) (child : Child)
    (cwd : path) (args : list string) :
  (forall dir, In dir (ancestors cwd) -> hasManifest fs dir = false) ->
  (cleanArgs args = [] \/
   exists command rest,
     cleanArgs args = command :: rest /\ In command SUPPORTED_COMMANDS) ->
  main fs child cwd args = ([noManifestError], Exits 1%Z).
Proof.
  intros Hnone Hargs.
  assert (Hfind : findProjectStructure fs cwd = None).
  { unfold findProjectStructure. rewrite walk_localRoot.
    now rewrite (proj2 (hd_error_filter_none _ _) Hnone). }
  rewrite main_shape, Hfind.
  destruct Hargs as [-> | (command & rest & -> & Hin)]; [reflexivity|].
  now rewrite (proj2 (includes_In _ _) Hin).
Qed.

Lemma missing_manifest_is_fatal_witness :
  main fsRootManifest childOk ["srv"] ["add"; "lodash"]
    = ([noManifestError], Exits 1%Z).
Proof.
  apply (missing_manifest_is_fatal fsRootManifest childOk ["srv"] ["add"; "lodash"]).
  - intros dir [<- | []]. reflexivity.
  - right. exists "add", ["lodash"]. split; [reflexivity | simpl; auto].
Defined.

(** X15: the process starts at most one child, and how it ends follows
    the child: it returns normally when the child command returns, exits
    with the child's status when that status is a non-zero number, and
    exits with code 1 when the status is zero or missing. *)
Theorem child_status_is_propagated (fs : FileSystem) (child : Child)
    (cwd : path) (args : list string) (commandLine : string) (dir : path) :
  In (ExecSync commandLine dir) (trace (main fs child cwd args)) ->
  filter isExec (trace (main fs child cwd args)) = [ExecSync commandLine dir] /\
  (child commandLine dir = ChildReturns ->
     result (main fs child cwd args) = Returns tt) /\
  (forall status, child commandLine dir = ChildThrows (Some status) ->
     status <> 0%Z -> result (main fs child cwd args) = Exits status) /\
  (child commandLine dir = ChildThrows None \/
   child commandLine dir = ChildThrows (Some 0%Z) ->
     result (main fs child cwd args) = Exits 1%Z).
Proof.
  rewrite main_shape.
  assert (Hexit : forall o : outcome unit,
            o = exitOf (child commandLine dir) ->
            (child commandLine dir = ChildReturns -> o = Returns tt) /\
            (forall status, child commandLine dir = ChildThrows (Some status) ->
               status <> 0%Z -> o = Exits status) /\
            (child commandLine dir = ChildThrows None \/
             child commandLine dir = ChildThrows (Some 0%Z) -> o = Exits 1%Z)).
  { intros o ->. unfold exitOf. repeat split.
    - now intros ->.
    - intros status -> Hnz. apply Z.eqb_neq in Hnz. now rewrite Hnz.
    - now intros [-> | ->]. }
  destruct (cleanArgs args) as [|command commandArgs].
  - destruct (findProjectStructure fs cwd) as [s|]; simpl.
    + intros [H | [H | []]]; [discriminate|]. injection H as <- <-.
      split; [reflexivity | now apply Hexit].
    + intros [H | []]. discriminate.
  - destruct (includes SUPPORTED_COMMANDS command).
    + destruct (findProjectStructure fs cwd) as [s|]; simpl.
      * pose proof (harmonize_no_exec command commandArgs
                      (manager (detectPackageManager fs s))) as Hno.
        destruct (harmonizeCommand command commandArgs
                    (manager (detectPackageManager fs s))) as [t [tokens|code]];
          simpl in *.
        -- intros Hin. apply in_app_iff in Hin as [Hin | [H | [H | []]]].
           ++ apply Hno in Hin. discriminate.
           ++ discriminate.
           ++ injection H as <- <-. rewrite filter_app, (filter_nothing _ _ Hno).
              split; [reflexivity | now apply Hexit].
        -- intros Hin. apply Hno in Hin. discriminate.
      * intros [H | []]. discriminate.
    + simpl. intros [H | [H | []]]; discriminate.
Qed.

Lemma child_status_is_propagated_witness :
  result (main fsPlain childFails projDir ["install"]) = Exits 3%Z.
Proof.
  apply (child_status_is_propagated fsPlain childFails projDir ["install"]
           "npm install" projDir) with (status := 3%Z).
  - simpl. right. right. now left.
  - reflexivity.
  - discriminate.
Defined.

(** X16: the debug flag changes nothing but the line printed with
    [console.log]: two argument lists that agree once [--debug] is
    removed give the same outcome and, apart from that line, the same
    errors and the same child command in the same directory. *)
Theorem debug_flag_only_changes_the_log (fs : FileSystem) (child : Child)
    (cwd : path) (args args' : list string) :
  cleanArgs args = cleanArgs args' ->
  result (main fs child cwd args) = result (main fs child cwd args') /\
  withoutLog (trace (main fs child cwd args))
    = withoutLog (trace (main fs child cwd args')).
Proof.
  intros Hsame. rewrite !main_shape, <- Hsame.
  destruct (cleanArgs args) as [|command commandArgs].
  - destruct (findProjectStructure fs cwd); split; reflexivity.
  - destruct (includes SUPPORTED_COMMANDS command); [|split; reflexivity].
    destruct (findProjectStructure fs cwd) as [s|]; [|split; reflexivity].
    simpl.
    destruct (harmonizeCommand command commandArgs
                (manager (detectPackageManager fs s))) as [t [tokens|code]];
      [|split; reflexivity].
    split; [reflexivity|]. unfold withoutLog. simpl.
    now rewrite !filter_app.
Qed.

Lemma debug_flag_only_changes_the_log_witness :
  result (main fsWorkspace childOk appDir ["build"; "--debug"])
    = result (main fsWorkspace childOk appDir ["--debug"; "--debug"; "build"]) /\
  withoutLog (trace (main fsWorkspace childOk appDir ["build"; "--debug"]))
    = withoutLog (trace (main fsWorkspace childOk appDir ["--debug"; "--debug"; "build"])).
Proof.
  apply (debug_flag_only_changes_the_log fsWorkspace childOk appDir). reflexivity.
Defined.

(** X17: every child process is started in the local root or in the
    monorepo root of the resolved structure, hence in a directory at or
    above the current one that holds a manifest. *)
Theorem child_runs_beside_a_manifest (fs : FileSystem) (child : Child)
    (cwd : path) (args : list string) (commandLine : string) (dir : path) :
  In (ExecSync commandLine dir) (trace (main fs child cwd args)) ->
  hasManifest fs dir = true /\ ancestorOrSelf dir cwd /\ dir <> root /\
  exists s, findProjectStructure fs cwd = Some s /\
            (dir = localRoot s \/ monorepoRoot s = Some dir).
Proof.
  intros Hin.
  destruct (main_exec fs child cwd args commandLine dir Hin) as (s & Hs & Hcase).
  assert (Hroot : dir = localRoot s \/ monorepoRoot s = Some dir).
  { destruct Hcase as [(_ & _ & ->) | (command & cargs & tokens & _ & _ & _ & _ & ->)];
      [now left | apply executionDirectory_is_a_root]. }
  assert (Hchain : In dir (ancestors cwd) /\ hasManifest fs dir = true).
  { destruct Hroot as [-> | Hm].
    - destruct (proj2 (resolver_finds_nearest_below_root fs cwd) s Hs)
        as (n & f & Ha & Hman & _).
      split; [|assumption]. rewrite Ha. apply in_app_iff. right. now left.
    - destruct (monorepo_candidate fs cwd s dir Hs Hm) as (Hanc & Hman & _).
      now split. }
  destruct Hchain as [Hanc Hman].
  repeat split; [assumption | now apply ancestors_suffix
                 | now apply (ancestors_nonroot cwd) |].
  now exists s.
Qed.

Lemma child_runs_beside_a_manifest_witness :
  hasManifest fsWorkspace repoDir = true /\ ancestorOrSelf repoDir appDir /\
  repoDir <> root /\
  exists s, findProjectStructure fsWorkspace appDir = Some s /\
            (repoDir = localRoot s \/ monorepoRoot s = Some repoDir).
Proof.
  apply (child_runs_beside_a_manifest fsWorkspace childOk appDir ["install"]
           "pnpm install" repoDir).
  simpl. right. right. now left.
Defined.

(** X18: [add] and [install] always start their child, and start it in
    the monorepo root when the structure has one and in the local root
    otherwise, wherever scripts are declared. *)
Theorem dependency_commands_run_in_monorepo_root (fs : FileSystem) (child : Child)
    (cwd : path) (args : list string) (command : string) (rest : list string)
    (s : ProjectStructure) :
  cleanArgs args = command :: rest ->
  In command rootCommands ->
  findProjectStructure fs cwd = Some s ->
  exists tokens,
    result (harmonizeCommand command rest (manager (detectPackageManager fs s)))
      = Returns tokens /\
    withoutLog (trace (main fs child cwd args))
      = [Harmonizing command rest (manager (detectPackageManager fs s));
         ExecSync (joinWith " " tokens)
                  match monorepoRoot s with
                  | Some mr => mr
                  | None => localRoot s
                  end].
Proof.
  intros Hclean Hin Hs. rewrite main_shape, Hclean, Hs.
  destruct Hin as [<- | [<- | []]]; simpl;
    destruct (manager (detectPackageManager fs s)), rest as [|a rest];
    eexists; (split; [reflexivity|]); reflexivity.
Qed.

Lemma dependency_commands_run_in_monorepo_root_witness :
  exists tokens,
    result (harmonizeCommand "add" ["react"]
              (manager (detectPackageManager fsWorkspace workspaceStructure)))
      = Returns tokens /\
    withoutLog (trace (main fsWorkspace childOk appDir ["add"; "react"]))
      = [Harmonizing "add" ["react"]
           (manager (detectPackageManager fsWorkspace workspaceStructure));
         ExecSync (joinWith " " tokens) repoDir].
Proof.
  apply (dependency_commands_run_in_monorepo_root fsWorkspace childOk appDir
           ["add"; "react"] "add" ["react"] workspaceStructure).
  - reflexivity.
  - simpl. now left.
  - reflexivity.
Defined.

(** X19: invoked without a command, with or without [--debug], the
    process runs the bare manager executable in the local root, also when
    the structure has a monorepo root, and never enters the harmonizer. *)
Theorem bare_invocation_runs_manager_in_local_root (fs : FileSystem) (child : Child)
    (cwd : path) (args : list string) (s : ProjectStructure) :
  cleanArgs args = [] ->
  findProjectStructure fs cwd = Some s ->
  withoutLog (trace (main fs child cwd args))
    = [ExecSync (pmName (manager (detectPackageManager fs s))) (localRoot s)] /\
  result (main fs child cwd args)
    = exitOf (child (pmName (manager (detectPackageManager fs s))) (localRoot s)).
Proof.
  intros Hclean Hs. rewrite main_shape, Hclean, Hs. split; reflexivity.
Qed.

Lemma bare_invocation_runs_manager_in_local_root_witness :
  withoutLog (trace (main fsWorkspace childOk appDir ["--debug"]))
    = [ExecSync "pnpm" appDir] /\
  result (main fsWorkspace childOk appDir ["--debug"]) = Returns tt.
Proof.
  apply (bare_invocation_runs_manager_in_local_root fsWorkspace childOk appDir
           ["--debug"] workspaceStructure); reflexivity.
Defined.

(** X20: [run] followed by an empty script name is rejected like [run]
    alone: exit code 1, no child process, whatever follows the empty
    name. *)
Theorem run_with_empty_script_name_is_fatal (fs : FileSystem) (child : Child)
    (cwd : path) (args rest : list string) :
  cleanArgs args = "run" :: EmptyString :: rest ->
  result (main fs child cwd args) = Exits 1%Z /\
  filter isExec (trace (main fs child cwd args)) = [] /\
  (forall s, findProjectStructure fs cwd = Some s ->
     trace (main fs child cwd args)
       = [Harmonizing "run" (EmptyString :: rest) (manager (detectPackageManager fs s));
          runUsageError]).
Proof.
  intros Hclean. rewrite main_shape, Hclean. simpl.
  destruct (findProjectStructure fs cwd) as [s|]; simpl.
  - repeat split. now intros s' [= <-].
  - repeat split. discriminate.
Qed.

Lemma run_with_empty_script_name_is_fatal_witness :
  result (main fsPlain childOk projDir ["run"; EmptyString; "build"]) = Exits 1%Z.
Proof.
  apply (run_with_empty_script_name_is_fatal fsPlain childOk projDir
           ["run"; EmptyString; "build"] ["build"]).
  reflexivity.
Defined.

(** X21: whatever follows one of the four shortcuts is dropped: the
    child command line is the manager's name, [run] and the shortcut's
    name, nothing more. *)
Theorem shortcut_arguments_are_dropped (fs : FileSystem) (child : Child)
    (cwd : path) (args : list string) (command : string) (extra : list string)
    (s : ProjectStructure) :
  cleanArgs args = command :: extra ->
  In command shortcutCommands ->
  findProjectStructure fs cwd = Some s ->
  withoutLog (trace (main fs child cwd args))
    = [Harmonizing command extra (manager (detectPackageManager fs s));
       ExecSync (pmName (manager (detectPackageManager fs s)) ++ " run " ++ command)
                (getExecutionDirectory fs command s)].
Proof.
  intros Hclean Hin Hs. rewrite main_shape, Hclean, Hs.
  destruct Hin as [<- | [<- | [<- | [<- | []]]]]; reflexivity.
Qed.

Lemma shortcut_arguments_are_dropped_witness :
  withoutLog (trace (main fsWorkspace childOk appDir ["build"; "--watch"; "--debug"]))
    = [Harmonizing "build" ["--watch"] pnpm; ExecSync "pnpm run build" repoDir].
Proof.
  apply (shortcut_arguments_are_dropped fsWorkspace childOk appDir
           ["build"; "--watch"; "--debug"] "build" ["--watch"] workspaceStructure).
  - reflexivity.
  - simpl. now left.
  - reflexivity.
Defined.

(** ** The debug flag and the child command line *)

Lemma cleanArgs_keeps_clean (args : list string) :
  ~ In "--debug" args -> cleanArgs args = args.
Proof.
  induction args as [|a args IH]; simpl; [reflexivity|].
  intros Hnot. unfold isDebugFlag at 1.
  destruct (String.eqb_spec a "--debug") as [-> | _]; simpl.
  - elim Hnot. now left.
  - f_equal. apply IH. intros Hin. apply Hnot. now right.
Qed.

Lemma cleanArgs_drops_flag (pre post : list string) :
  cleanArgs (pre ++ "--debug" :: post) = cleanArgs (pre ++ post).
Proof. unfold cleanArgs. now rewrite !filter_app. Qed.

Lemma words_nonempty (s : string) : words s <> [].
Proof.
  destruct s as [|c s]; simpl; [discriminate|].
  destruct (Ascii.eqb c " "); [discriminate|].
  destruct (words s); discriminate.
Qed.

Lemma words_app_space (a b : string) :
  words (a ++ String " " b) = words a ++ words b.
Proof.
  induction a as [|c a IH]; simpl; [reflexivity|].
  rewrite IH. destruct (Ascii.eqb c " "); [reflexivity|].
  destruct (words a) as [|w ws] eqn:Hw; [|reflexivity].
  now elim (words_nonempty a).
Qed.

Lemma words_join (tokens : list string) :
  tokens <> [] -> words (joinWith " " tokens) = flat_map words tokens.
Proof.
  induction tokens as [|t rest IH]; [congruence|]. intros _.
  destruct rest as [|u rest].
  - simpl. now rewrite app_nil_r.
  - change (joinWith " " (t :: u :: rest))
      with (t ++ String " " (joinWith " " (u :: rest)))%string.
    rewrite words_app_space, IH; [reflexivity | discriminate].
Qed.

Lemma manager_name_is_no_flag (m : PackageManager) : ~ hasDebugWord (pmName m).
Proof. destruct m; intros [H | []]; discriminate H. Qed.

(** A word [--debug] among the harmonized tokens comes from an argument. *)
Lemma debug_word_comes_from_argument (command : string) (args : list string)
    (m : PackageManager) (tokens : list string) :
  result (harmonizeCommand command args m) = Returns tokens ->
  hasDebugWord (joinWith " " tokens) ->
  exists a, In a args /\ hasDebugWord a.
Proof.
  intros Hres Hword. unfold hasDebugWord in Hword.
  rewrite words_join in Hword.
  - apply in_flat_map in Hword as (t & Ht & Hw).
    destruct (harmonize_tokens _ _ _ _ Hres t Ht) as [-> | [Hsub | Harg]].
    + now apply manager_name_is_no_flag in Hw.
    + simpl in Hsub.
      repeat (destruct Hsub as [<- | Hsub];
              [destruct Hw as [Hw | []]; discriminate Hw|]).
      destruct Hsub.
    + now exists t.
  - intros ->. destruct Hword as [H | []]. discriminate H.
Qed.

(** C10, as the code has it: every argument equal to [--debug] is removed
    before the command is read, and nothing else is: the other arguments
    keep their order.  The child command line is the tokens of the bare
    manager or of the harmonizer joined by single spaces, and it is
    started whenever the harmonizer returns tokens.  [--debug] is none of
    these tokens; the command line holds [--debug] as a word of its own
    only when some argument other than the flag itself holds it as a word
    after a space.  [run --debug] is [run] without arguments, a usage
    error with exit code 1 and no child process. *)
Theorem debug_flag_is_stripped (fs : FileSystem) (child : Child) (cwd : path)
    (args : list string) :
  ~ In "--debug" (cleanArgs args) /\
  (forall a, In a (cleanArgs args) <-> In a args /\ a <> "--debug") /\
  (~ In "--debug" args -> cleanArgs args = args) /\
  (forall pre post, cleanArgs (pre ++ "--debug" :: post) = cleanArgs (pre ++ post)) /\
  (forall commandLine dir,
     In (ExecSync commandLine dir) (trace (main fs child cwd args)) ->
     (hasDebugWord commandLine ->
        exists a, In a args /\ a <> "--debug" /\ hasDebugWord a) /\
     exists s tokens,
       findProjectStructure fs cwd = Some s /\
       commandLine = joinWith " " tokens /\ ~ In "--debug" tokens /\
       ((cleanArgs args = [] /\
         tokens = [pmName (manager (detectPackageManager fs s))]) \/
        (exists command commandArgs,
           cleanArgs args = command :: commandArgs /\
           result (harmonizeCommand command commandArgs
                     (manager (detectPackageManager fs s))) = Returns tokens))) /\
  (forall s, findProjectStructure fs cwd = Some s ->
     (cleanArgs args = [] ->
        In (ExecSync (pmName (manager (detectPackageManager fs s))) (localRoot s))
           (trace (main fs child cwd args))) /\
     (forall command commandArgs tokens,
        cleanArgs args = command :: commandArgs ->
        In command SUPPORTED_COMMANDS ->
        result (harmonizeCommand command commandArgs
                  (manager (detectPackageManager fs s))) = Returns tokens ->
        In (ExecSync (joinWith " " tokens) (getExecutionDirectory fs command s))
           (trace (main fs child cwd args)))) /\
  cleanArgs ["run"; "--debug"] = ["run"] /\
  (cleanArgs args = ["run"] ->
     result (main fs child cwd args) = Exits 1%Z /\
     (forall e, In e (trace (main fs child cwd args)) -> isExec e = false) /\
     main fs child cwd args = main fs child cwd ["run"]).
Proof.
  assert (Hclean : ~ In "--debug" (cleanArgs args))
    by (rewrite cleanArgs_spec; now intros [_ H]).
  split; [exact Hclean|]. split; [apply cleanArgs_spec|].
  split; [apply cleanArgs_keeps_clean|]. split; [apply cleanArgs_drops_flag|].
  split; [|split; [|split]].
  - intros commandLine dir Hin.
    destruct (main_exec fs child cwd args commandLine dir Hin)
      as (s & Hs & [(Hnil & -> & ->) | (command & cargs & tokens & Hc & _ & Hres & -> & ->)]).
    + split.
      * intros Hword. now apply manager_name_is_no_flag in Hword.
      * exists s, [pmName (manager (detectPackageManager fs s))].
        repeat split; auto.
        destruct (manager (detectPackageManager fs s)); simpl;
          intros [H | []]; discriminate.
    + split.
      * intros Hword.
        destruct (debug_word_comes_from_argument _ _ _ _ Hres Hword) as (a & Ha & Hw).
        assert (Hin' : In a (cleanArgs args)) by (rewrite Hc; now right).
        apply cleanArgs_spec in Hin' as [Hargs Hneq]. now exists a.
      * exists s, tokens. repeat split; auto.
        -- intros Hdebug.
           destruct (harmonize_tokens _ _ _ _ Hres _ Hdebug) as [H | [H | H]].
           ++ destruct (manager (detectPackageManager fs s)); discriminate.
           ++ simpl in H. repeat (destruct H as [H | H]; [discriminate|]). destruct H.
           ++ apply Hclean. rewrite Hc. now right.
        -- right. now exists command, cargs.
  - intros s Hs. rewrite main_shape, Hs. split.
    + intros ->. simpl. right. now left.
    + intros command cargs tokens -> Hsup Hres.
      rewrite (proj2 (includes_In _ _) Hsup). simpl.
      destruct (harmonizeCommand command cargs (manager (detectPackageManager fs s)))
        as [t o]. simpl in Hres. subst o.
      apply in_app_iff. right. right. now left.
  - reflexivity.
  - intros Hrun. destruct (run_alone_is_fatal fs child cwd args Hrun) as [He Hn].
    repeat split; auto.
    rewrite (main_run_alone fs child cwd args Hrun).
    now rewrite (main_run_alone fs child cwd ["run"] eq_refl).
Qed.

Lemma debug_flag_is_stripped_witness :
  (result (main fsPlain childOk projDir ["run"; "--debug"]) = Exits 1%Z /\
   (forall e, In e (trace (main fsPlain childOk projDir ["run"; "--debug"])) ->
              isExec e = false) /\
   main fsPlain childOk projDir ["run"; "--debug"]
     = main fsPlain childOk projDir ["run"]) /\
  In (ExecSync "npm run build" projDir)
     (trace (main fsPlain childOk projDir ["--debug"; "run"; "build"; "--debug"])).
Proof.
  split.
  - apply (debug_flag_is_stripped fsPlain childOk projDir ["run"; "--debug"]).
    reflexivity.
  - apply (debug_flag_is_stripped fsPlain childOk projDir
             ["--debug"; "run"; "build"; "--debug"])
      with (s := mkStructure projDir None None) (command := "run")
           (commandArgs := ["build"]) (tokens := ["npm"; "run"; "build"]).
    + reflexivity.
    + reflexivity.
    + simpl. do 2 right. now left.
    + reflexivity.
Defined.

(** C10 as stated fails: the argument [build --debug] is not the flag, so
    it is kept, and the child command line [npm run build --debug] holds
    [--debug] as a word of its own. *)
Lemma argument_with_embedded_debug_reaches_child :
  cleanArgs ["run"; "build --debug"] = ["run"; "build --debug"] /\
  trace (main fsPlain childOk projDir ["run"; "build --debug"])
    = [Harmonizing "run" ["build --debug"] npm;
       ConsoleLog "Using npm: npm run build --debug";
       ExecSync "npm run build --debug" projDir] /\
  ~ (forall commandLine dir,
       In (ExecSync commandLine dir)
          (trace (main fsPlain childOk projDir ["run"; "build --debug"])) ->
       ~ hasDebugWord commandLine).
Proof.
  split; [reflexivity|]. split; [reflexivity|].
  intros H.
  apply (H "npm run build --debug" projDir).
  - simpl. do 2 right. now left.
  - unfold hasDebugWord. simpl. do 3 right. now left.
Qed.
